(** * Section classifier of the mortgage package analyzer

    A shallow embedding of [analyze_mortgage_sections] (src/app.py, lines
    173-262) and the properties of its rule-based matcher.

    Modelling conventions.
    - Python [str] values are [string]s; the development covers ASCII text:
      [upper], [strip] and [split] implement Python's behaviour on code
      points below 128 and leave other bytes alone.
    - Python [int] values are [Z].
    - The items of [text_content], the rules and the result records are
      dictionaries with a fixed set of keys in the source; they are records
      here.  The confidence tier, one of three string constants, is an
      enumeration.
    - [found_sections] is a dictionary whose values are listed in insertion
      order before sorting: it is an association list in insertion order.
      Indexing it at an absent key raises [KeyError], so the classifier
      lives in an error monad.
    - [print] calls are diagnostics and are left out. *)

From Stdlib Require Import List String Ascii ZArith Bool Arith Lia.
From Stdlib Require Import DecimalString.
From Stdlib Require Import Permutation Sorted RelationClasses.
Import ListNotations.

Local Open Scope Z_scope.
Local Open Scope string_scope.
Local Open Scope list_scope.

(** ** Python string operations used by the classifier *)

Module PyStr.

(** [c.isspace()] for an ASCII character: TAB..CR, FS..US and space. *)
Definition is_space (c : ascii) : bool :=
  let n := nat_of_ascii c in
  ((9 <=? n)%nat && (n <=? 13)%nat) || ((28 <=? n)%nat && (n <=? 32)%nat).

Definition to_upper (c : ascii) : ascii :=
  let n := nat_of_ascii c in
  if ((97 <=? n)%nat && (n <=? 122)%nat) then ascii_of_nat (n - 32) else c.

(** [s.upper()] *)
Fixpoint upper (s : string) : string :=
  match s with
  | EmptyString => EmptyString
  | String c s' => String (to_upper c) (upper s')
  end.

(** [p in t]: [p] occurs in [t] as a contiguous substring. *)
Fixpoint contains (p t : string) : bool :=
  prefix p t ||
  match t with
  | EmptyString => false
  | String _ t' => contains p t'
  end.

Fixpoint lstrip (s : string) : string :=
  match s with
  | EmptyString => EmptyString
  | String c s' => if is_space c then lstrip s' else s
  end.

Fixpoint rstrip (s : string) : string :=
  match s with
  | EmptyString => EmptyString
  | String c s' =>
      match rstrip s' with
      | EmptyString => if is_space c then EmptyString else String c EmptyString
      | r => String c r
      end
  end.

(** [s.strip()] *)
Definition strip (s : string) : string := rstrip (lstrip s).

(** The loop of [s.split()]: [cur] is the word being read. *)
Fixpoint split_from (cur s : string) : list string :=
  match s with
  | EmptyString => match cur with EmptyString => [] | _ => [cur] end
  | String c s' =>
      if is_space c then
        match cur with
        | EmptyString => split_from EmptyString s'
        | _ => cur :: split_from EmptyString s'
        end
      else split_from (String.append cur (String c EmptyString)) s'
  end.

(** [s.split()]: the maximal runs of non-whitespace characters. *)
Definition split (s : string) : list string := split_from EmptyString s.

(** [s[:n]] for [n >= 0] *)
Definition slice_to (n : nat) (s : string) : string := substring 0 n s.

End PyStr.

(** ** Data model *)

(** An item of [text_content]: [{"text": ..., "page": ..., "method": ...}]. *)
Module Item.
Record t : Type := mk { text : string; page : Z; method : string }.
End Item.

(** An entry of the rule catalog. *)
Module Rule.
Record t : Type := mk { patterns : list string; label : string; priority : Z }.
End Rule.

Inductive Confidence : Type := high | medium | low.

(** A value of [found_sections], and a record of the returned list. *)
Record IdentifiedSection : Type := mkSection {
  section_type : string;
  page : Z;
  confidence : Confidence;
  text_snippet : string;
  priority : Z;
  pattern_matched : string
}.

Definition Confidence_eqb (a b : Confidence) : bool :=
  match a, b with
  | high, high | medium, medium | low, low => true
  | _, _ => false
  end.

(** [confidence_rank = {"high": 3, "medium": 2, "low": 1}] (line 246); the
    default [0] of [.get] is for strings outside the three tiers, which the
    enumeration excludes. *)
Definition confidence_rank (c : Confidence) : Z :=
  match c with high => 3 | medium => 2 | low => 1 end.

(** ** Exceptions *)

Inductive exn : Type := KeyError (key : string).

Inductive result (A : Type) : Type :=
| Ok (a : A)
| Raise (e : exn).
Arguments Ok {A} a.
Arguments Raise {A} e.

Definition bind {A B : Type} (m : result A) (k : A -> result B) : result B :=
  match m with
  | Ok a => k a
  | Raise e => Raise e
  end.

Notation "x <- m ;; k" := (bind m (fun x => k))
  (at level 61, m at next level, right associativity).

(** ** The dictionary [found_sections] *)

Definition dict : Type := list (string * IdentifiedSection).

(** [d.get(k)] as an option; the pure view used in statements. *)
Fixpoint dict_lookup (d : dict) (k : string) : option IdentifiedSection :=
  match d with
  | [] => None
  | (k', v) :: d' => if String.eqb k k' then Some v else dict_lookup d' k
  end.

(** [k in d] *)
Definition dict_contains (d : dict) (k : string) : bool :=
  existsb (fun kv => String.eqb k (fst kv)) d.

(** [d[k]], raising [KeyError] at an absent key. *)
Definition dict_getitem (d : dict) (k : string) : result IdentifiedSection :=
  match dict_lookup d k with
  | Some v => Ok v
  | None => Raise (KeyError k)
  end.

(** [d[k] = v]: overwrite in place, or append a new key at the end. *)
Fixpoint dict_setitem (d : dict) (k : string) (v : IdentifiedSection) : dict :=
  match d with
  | [] => [(k, v)]
  | (k', v') :: d' =>
      if String.eqb k k' then (k', v) :: d' else (k', v') :: dict_setitem d' k v
  end.

(** [list(d.values())] *)
Definition dict_values (d : dict) : list IdentifiedSection := map snd d.

Definition dict_keys (d : dict) : list string := map fst d.

(** ** The rule catalog (lines 177-207) *)

Definition section_rules : list Rule.t :=
  [ Rule.mk ["MORTGAGE"; "DEED OF TRUST"; "SECURITY INSTRUMENT"] "Mortgage" 10;
    Rule.mk ["PROMISSORY NOTE"; "NOTE"] "Promissory Note" 10;
    Rule.mk ["LENDERS CLOSING INSTRUCTIONS"; "CLOSING INSTRUCTIONS GUARANTY";
             "LENDER'S CLOSING INSTRUCTIONS"]
            "Lenders Closing Instructions Guaranty" 9;
    Rule.mk ["SETTLEMENT STATEMENT"; "HUD-1"; "CLOSING DISCLOSURE"]
            "Settlement Statement" 9;
    Rule.mk ["STATEMENT OF ANTI COERCION"; "ANTI COERCION"; "ANTI-COERCION FLORIDA"]
            "Statement of Anti Coercion Florida" 8;
    Rule.mk ["CORRECTION AGREEMENT"; "LIMITED POWER OF ATTORNEY"; "POWER OF ATTORNEY"]
            "Correction Agreement and Limited Power of Attorney" 8;
    Rule.mk ["ALL PURPOSE ACKNOWLEDGMENT"; "ACKNOWLEDGMENT"; "NOTARY ACKNOWLEDGMENT"]
            "All Purpose Acknowledgment" 8;
    Rule.mk ["FLOOD HAZARD DETERMINATION"; "FLOOD DETERMINATION"; "FEMA FLOOD"]
            "Flood Hazard Determination" 7;
    Rule.mk ["INSURANCE POLICY"; "HOMEOWNER'S INSURANCE"; "HAZARD INSURANCE"]
            "Insurance Policy" 7;
    Rule.mk ["AUTOMATIC PAYMENTS AUTHORIZATION"; "AUTOMATIC PAYMENT"; "ACH AUTHORIZATION"]
            "Automatic Payments Authorization" 7;
    Rule.mk ["TAX RECORD INFORMATION"; "TAX RECORDS"; "PROPERTY TAX"]
            "Tax Record Information" 7;
    Rule.mk ["TITLE POLICY"; "TITLE INSURANCE"; "OWNER'S POLICY"] "Title Policy" 6;
    Rule.mk ["DEED"; "WARRANTY DEED"; "QUITCLAIM DEED"] "Deed" 6;
    Rule.mk ["UCC FILING"; "UCC-1"; "FINANCING STATEMENT"] "UCC Filing" 5;
    Rule.mk ["SIGNATURE PAGE"; "SIGNATURES"; "BORROWER SIGNATURE"] "Signature Page" 5;
    Rule.mk ["AFFIDAVIT"; "SWORN STATEMENT"] "Affidavit" 5 ].

(** ** The classifier *)

(** Lines 224-230: the confidence of a match of [pattern] in [text], the
    upper-cased text of the item. *)
Definition determine_confidence
    (patterns : list string) (pattern text : string) : Confidence :=
  if String.eqb (PyStr.strip text) pattern then high
  else if PyStr.contains pattern text
          && (List.length (PyStr.split text) <=? 10)%nat then high
  else if (1 <? List.length (filter (fun p => PyStr.contains p text) patterns))%nat
  then high
  else medium.

(** The test of lines 247-248. *)
Definition better_match
    (confidence0 : Confidence) (priority0 : Z) (existing : IdentifiedSection) : bool :=
  (confidence_rank confidence0 >? confidence_rank (confidence existing))%Z
  || (Confidence_eqb confidence0 (confidence existing)
      && (priority0 >=? priority existing)%Z).

(** The effect of [.update({...})] at lines 249-254 on a record. *)
Definition update_section
    (existing : IdentifiedSection) (page0 : Z) (confidence0 : Confidence)
    (snippet pattern : string) : IdentifiedSection :=
  {| section_type := section_type existing;
     page := page0;
     confidence := confidence0;
     text_snippet := snippet;
     priority := priority existing;
     pattern_matched := pattern |}.

(** Lines 233-254: keep the best match for each section type. *)
Definition keep_best
    (found_sections : dict) (item : Item.t) (rule : Rule.t)
    (page0 : Z) (confidence0 : Confidence) (pattern : string) : result dict :=
  let label := Rule.label rule in
  let priority0 := Rule.priority rule in
  if negb (dict_contains found_sections label) then
    Ok (dict_setitem found_sections label
          {| section_type := label;
             page := page0;
             confidence := confidence0;
             text_snippet := PyStr.slice_to 100 (Item.text item);
             priority := priority0;
             pattern_matched := pattern |})
  else
    existing <- dict_getitem found_sections label ;;
    if better_match confidence0 priority0 existing then
      target <- dict_getitem found_sections label ;;
      Ok (dict_setitem found_sections label
            (update_section target page0 confidence0
               (PyStr.slice_to 100 (Item.text item)) pattern))
    else Ok found_sections.

(** Lines 221-255: the loop over the patterns of one rule, left at the
    first pattern found in the text ([break]). *)
Fixpoint scan_patterns
    (found_sections : dict) (item : Item.t) (text : string) (page0 : Z)
    (rule : Rule.t) (pats : list string) : result dict :=
  match pats with
  | [] => Ok found_sections
  | pattern :: rest =>
      if PyStr.contains pattern text then
        keep_best found_sections item rule page0
          (determine_confidence (Rule.patterns rule) pattern text) pattern
      else scan_patterns found_sections item text page0 rule rest
  end.

(** Lines 216-255: the loop over the rules for one item. *)
Fixpoint scan_rules
    (found_sections : dict) (item : Item.t) (text : string) (page0 : Z)
    (rules : list Rule.t) : result dict :=
  match rules with
  | [] => Ok found_sections
  | rule :: rest =>
      found' <- scan_patterns found_sections item text page0 rule (Rule.patterns rule) ;;
      scan_rules found' item text page0 rest
  end.

(** Lines 213-255: the body of the loop over the items. *)
Definition scan_item (rules : list Rule.t) (found_sections : dict) (item : Item.t)
  : result dict :=
  let text := PyStr.upper (Item.text item) in
  let page0 := Item.page item in
  scan_rules found_sections item text page0 rules.

(** Lines 212-255: the loop over the items. *)
Fixpoint scan_items
    (rules : list Rule.t) (found_sections : dict) (text_content : list Item.t)
  : result dict :=
  match text_content with
  | [] => Ok found_sections
  | item :: rest =>
      found' <- scan_item rules found_sections item ;;
      scan_items rules found' rest
  end.

(** ** Sorting (lines 257-259) *)

(** [sorted(l, key=key)]: Python's sort is stable and compares keys with
    [<] only; a stable insertion sort returns the same list. *)
Section PySorted.
Context {A K : Type} (key : A -> K) (lt : K -> K -> bool).

Fixpoint insert_sorted (x : A) (l : list A) : list A :=
  match l with
  | [] => [x]
  | y :: l' => if lt (key y) (key x) then y :: insert_sorted x l' else x :: l
  end.

Definition sorted (l : list A) : list A := fold_right insert_sorted [] l.
End PySorted.

(** The key [lambda x: (-x["priority"], x["page"], x["section_type"])]. *)
Definition sort_key (x : IdentifiedSection) : Z * Z * string :=
  (- priority x, page x, section_type x).

(** [a < b] on such tuples: lexicographic, strings by code point. *)
Definition key_ltb (a b : Z * Z * string) : bool :=
  let '(a1, a2, a3) := a in
  let '(b1, b2, b3) := b in
  (a1 <? b1)%Z || ((a1 =? b1)%Z && ((a2 <? b2)%Z || ((a2 =? b2)%Z && String.ltb a3 b3))).

(** The classifier over a rule catalog [rules]. *)
Definition analyze_with (rules : list Rule.t) (text_content : list Item.t)
  : result (list IdentifiedSection) :=
  found_sections <- scan_items rules [] text_content ;;
  Ok (sorted sort_key key_ltb (dict_values found_sections)).

(** [analyze_mortgage_sections(text_content)] *)
Definition analyze_mortgage_sections (text_content : list Item.t)
  : result (list IdentifiedSection) :=
  analyze_with section_rules text_content.

(** * The rest of the application *)

(** The extraction, the progress tracking and the two JSON routes.
    - The calls into pdfplumber, pdf2image and pytesseract are not part of
      the program: what they return, or that they raise, is given as data
      ([Providers]).  Every such call sits in a [try ... except Exception],
      so a failure is a case of that data, not an exception of the model.
    - The global [progress_data] and the clock are the state ([World]) that
      the functions pass along.
    - The UUID drawn for a request is an argument of the route, and so is
      what reading [request.files] gives: the uploaded file, no file, or
      the exception that Flask raises for a request it refuses to read
      (a body over [MAX_CONTENT_LENGTH], line 51).
    - [update_progress] raises [OverflowError] when [current / total] times
      100 leaves the range of a float; the model says for which arguments,
      the value of the percentage stays symbolic. *)

(** ** More Python string operations *)

(** Truth value of a [str]: non-empty. *)
Definition str_truthy (s : string) : bool := negb (String.eqb s EmptyString).

(** The loop of [s.split(sep)] for a one-character separator; [cur] is the
    piece being read. *)
Fixpoint split_char_from (sep : ascii) (cur s : string) : list string :=
  match s with
  | EmptyString => [cur]
  | String c s' =>
      if Ascii.eqb c sep then cur :: split_char_from sep EmptyString s'
      else split_char_from sep (String.append cur (String c EmptyString)) s'
  end.

(** [s.split('\n')] *)
Definition split_lines (s : string) : list string :=
  split_char_from "010"%char EmptyString s.

(** [c.isalpha()] for an ASCII character. *)
Definition is_alpha (c : ascii) : bool :=
  let n := nat_of_ascii c in
  ((65 <=? n)%nat && (n <=? 90)%nat) || ((97 <=? n)%nat && (n <=? 122)%nat).

(** [any(c.isalpha() for c in s)] *)
Fixpoint any_alpha (s : string) : bool :=
  match s with
  | EmptyString => false
  | String c s' => is_alpha c || any_alpha s'
  end.

Definition to_lower (c : ascii) : ascii :=
  let n := nat_of_ascii c in
  if ((65 <=? n)%nat && (n <=? 90)%nat) then ascii_of_nat (n + 32) else c.

(** [s.lower()] on ASCII text. *)
Fixpoint lower (s : string) : string :=
  match s with
  | EmptyString => EmptyString
  | String c s' => String (to_lower c) (lower s')
  end.

(** [s.endswith(suffix)] *)
Definition endswith (s suffix : string) : bool :=
  let n := String.length s in
  let m := String.length suffix in
  (m <=? n)%nat && String.eqb (substring (n - m) m s) suffix.

(** [str(n)] for an integer, as in [f"ocr_page_{page_num}"]. *)
Definition str_of_int (n : Z) : string := NilZero.string_of_int (Z.to_int n).

(** ** Progress tracking (lines 56-67, 331-337) *)

(** The value of ["percentage"].  The source computes
    [int((current / total) * 100)] in floating point when [total > 0]; the
    expression is kept symbolic. *)
Inductive Percentage : Type :=
| percentage_zero
| percentage_of (current total : Z).

(** A value of [progress_data]. *)
Module Progress.
Record t : Type := mk {
  current : Z;
  total : Z;
  status : string;
  percentage : Percentage;
  timestamp : string
}.
End Progress.

(** The mutable state of the process: the global [progress_data], in
    insertion order, and the number of readings of the clock so far. *)
Record World : Type := mkWorld {
  progress_data : list (string * Progress.t);
  clock_reads : nat
}.

(** [d.get(k)] on [progress_data]. *)
Fixpoint progress_lookup (d : list (string * Progress.t)) (k : string)
  : option Progress.t :=
  match d with
  | [] => None
  | (k', v) :: d' => if String.eqb k k' then Some v else progress_lookup d' k
  end.

(** [d[k] = v] on [progress_data]. *)
Fixpoint progress_setitem (d : list (string * Progress.t)) (k : string)
    (v : Progress.t) : list (string * Progress.t) :=
  match d with
  | [] => [(k, v)]
  | (k', v') :: d' =>
      if String.eqb k k' then (k', v) :: d' else (k', v') :: progress_setitem d' k v
  end.

(** The exceptions that can reach the [except Exception] of the analysis
    route (lines 325-329): one of the classifier, the [OverflowError] of
    [update_progress], or one raised while the request is read. *)
Inductive raised : Type :=
| raised_by_classifier (e : exn)
| raised_overflow
| raised_by_request (message : string).

(** Responses of the routes: the JSON body and the HTTP status; the body
    of an answer 500 is [{'error': f"Document processing error: {str(e)}"}]
    for the exception [e]. *)
Inductive Body : Type :=
| ErrorBody (error : string)
| ExceptionBody (e : raised)
| ProgressBody (entry : Progress.t)
| AnalysisBody (session_id : string) (sections : list IdentifiedSection)
    (total_pages total_text_items : nat) (processing_method : string)
    (ocr_available pdfplumber_available : bool).

Definition Response : Type := (Body * Z)%type.

(** What a call into a library gives: a value, or an exception that the
    enclosing [try ... except Exception] catches. *)
Inductive outcome (A : Type) : Type :=
| Returned (a : A)
| Failed (message : string).
Arguments Returned {A} a.
Arguments Failed {A} message.

(** What the libraries deliver for the uploaded bytes: the pages of
    [pdfplumber.open] with the result of [extract_text()] for each ([None]
    or a string), and the images of [convert_from_bytes] with the result of
    [pytesseract.image_to_string] for each. *)
Record Providers : Type := mkProviders {
  PDFPLUMBER_AVAILABLE : bool;
  OCR_AVAILABLE : bool;
  pdf_pages : outcome (list (outcome (option string)));
  ocr_images : outcome (list (outcome string))
}.

(** [request.files.get('file')]: the name and the bytes of the upload. *)
Record Upload : Type := mkUpload {
  filename : string;
  file_content : list Byte.byte
}.

Section Application.

(** [clock n] is [datetime.now().isoformat()] at the [n]-th reading. *)
Variable clock : nat -> string.

(** Line 65 evaluates [int((current / total) * 100)] when [total > 0].
    The division of integers is correctly rounded to a double, and the
    product with 100 is a double again; [int] raises [OverflowError] on an
    infinite product, and so does the division on a quotient beyond the
    doubles.  Either happens exactly when the quotient lies above the
    midpoint between the greatest double whose product with 100 is finite
    and the next double, which is [11529215046068469 * 2 ^ 964]. *)
Definition percentage_overflows (current total : Z) : bool :=
  (11529215046068469 * 2 ^ 964 * total <? Z.abs current)%Z.

(** [update_progress(session_id, current, total, status)] (lines 59-67):
    [None] when line 65 raises [OverflowError]; nothing is recorded then,
    and the clock is not read. *)
Definition update_progress
    (session_id : string) (current total : Z) (status : string) (w : World)
  : option World :=
  if (total >? 0)%Z && percentage_overflows current total then None
  else
    Some
      {| progress_data :=
           progress_setitem (progress_data w) session_id
             {| Progress.current := current;
                Progress.total := total;
                Progress.status := status;
                Progress.percentage :=
                  if (total >? 0)%Z then percentage_of current total
                  else percentage_zero;
                Progress.timestamp := clock (clock_reads w) |};
         clock_reads := S (clock_reads w) |}.

(** [if session_id: update_progress(session_id, ...)] *)
Definition report_progress
    (session_id : option string) (current total : Z) (status : string) (w : World)
  : option World :=
  match session_id with
  | Some sid =>
      if str_truthy sid then update_progress sid current total status w else Some w
  | None => Some w
  end.

(** [[line.strip() for line in text.split('\n') if line.strip()]]
    (lines 95 and 139). *)
Definition stripped_lines (text : string) : list string :=
  map PyStr.strip
    (filter (fun line => str_truthy (PyStr.strip line)) (split_lines text)).

(** Lines 93-102: the items of one page of the text layer. *)
Definition pdfplumber_page_items (page_num : Z) (page_text : option string)
  : list Item.t :=
  match page_text with
  | Some t =>
      if str_truthy t && str_truthy (PyStr.strip t) then
        map (fun line => Item.mk line page_num "pdfplumber")
          (filter (fun line => (3 <? String.length line)%nat) (stripped_lines t))
      else []
  | None => []
  end.

(** Lines 88-106: the loop over the pages, from page [page_num] on.  An
    exception on a page, of the library or of the progress report, is
    caught at line 104 and the page is skipped. *)
Fixpoint pdfplumber_loop
    (session_id : option string) (total_pages page_num : Z)
    (pages : list (outcome (option string)))
    (text_content : list Item.t) (w : World) : list Item.t * World :=
  match pages with
  | [] => (text_content, w)
  | page :: rest =>
      match report_progress session_id page_num total_pages "extracting_text" w with
      | Some w1 =>
          match page with
          | Returned page_text =>
              pdfplumber_loop session_id total_pages (page_num + 1) rest
                (text_content ++ pdfplumber_page_items page_num page_text) w1
          | Failed _ =>
              pdfplumber_loop session_id total_pages (page_num + 1) rest
                text_content w1
          end
      | None =>
          pdfplumber_loop session_id total_pages (page_num + 1) rest text_content w
      end
  end.

(** Lines 136-152: the items of one page read by OCR. *)
Definition ocr_page_items (page_num : Z) (text : string) : list Item.t :=
  if str_truthy (PyStr.strip text) then
    map (fun line => Item.mk line page_num "OCR")
      (filter (fun line => (5 <? String.length line)%nat && any_alpha line)
         (stripped_lines text))
  else [].

(** Lines 128-159: the loop over the images, from page [page_num] on. *)
Fixpoint ocr_loop
    (session_id : option string) (total_pages page_num : Z)
    (images : list (outcome string))
    (ocr_text_content : list Item.t) (w : World) : list Item.t * World :=
  match images with
  | [] => (ocr_text_content, w)
  | image :: rest =>
      match report_progress session_id page_num total_pages
              (String.append "ocr_page_" (str_of_int page_num)) w with
      | Some w1 =>
          match image with
          | Returned text =>
              ocr_loop session_id total_pages (page_num + 1) rest
                (ocr_text_content ++ ocr_page_items page_num text) w1
          | Failed _ =>
              ocr_loop session_id total_pages (page_num + 1) rest
                ocr_text_content w1
          end
      | None =>
          ocr_loop session_id total_pages (page_num + 1) rest ocr_text_content w
      end
  end.

(** Lines 75-111: the text layer. *)
Definition pdfplumber_extraction
    (P : Providers) (session_id : option string) (w : World) : list Item.t * World :=
  if PDFPLUMBER_AVAILABLE P then
    match pdf_pages P with
    | Returned pages =>
        let total_pages := Z.of_nat (List.length pages) in
        match report_progress session_id 0 total_pages "extracting_text" w with
        | Some w0 => pdfplumber_loop session_id total_pages 1 pages [] w0
        | None => ([], w)
        end
    | Failed _ => ([], w)
    end
  else ([], w).

(** [extract_text_from_pdf(file_content, session_id)] (lines 69-171); the
    bytes enter through what the libraries deliver for them. *)
Definition extract_text_from_pdf
    (P : Providers) (session_id : option string) (w : World) : list Item.t * World :=
  let '(text_content, w1) := pdfplumber_extraction P session_id w in
  if (List.length text_content <? 10)%nat && OCR_AVAILABLE P then
    match ocr_images P with
    | Returned images =>
        let total_pages := Z.of_nat (List.length images) in
        match report_progress session_id 0 total_pages "ocr_processing" w1 with
        | Some w2 =>
            let '(ocr_text_content, w3) :=
              ocr_loop session_id total_pages 1 images [] w2 in
            match ocr_text_content with
            | [] => (text_content, w3)
            | _ => (ocr_text_content, w3)
            end
        | None => (text_content, w1)
        end
    | Failed _ => (text_content, w1)
    end
  else (text_content, w1).

(** [len(set(item['page'] for item in text_content))] *)
Definition count_pages (text_content : list Item.t) : nat :=
  List.length (nodup Z.eq_dec (map Item.page text_content)).

(** The route [/api/analyze] (lines 270-329); [session_id] is the string
    of the UUID drawn at line 276 and [request_files] is what reading the
    request gives: the upload, no upload, or the exception raised by
    [request.files] at line 278 (or by [file.read()] at line 289, which
    like it comes before anything is recorded).  Every exception inside
    the [try] is answered 500 at lines 325-329. *)
Definition analyze_document
    (P : Providers) (session_id : string)
    (request_files : outcome (option Upload)) (w : World)
  : Response * World :=
  match request_files with
  | Failed message => ((ExceptionBody (raised_by_request message), 500), w)
  | Returned None => ((ErrorBody "No file uploaded", 400), w)
  | Returned (Some f) =>
      if String.eqb (filename f) EmptyString then
        ((ErrorBody "No file selected", 400), w)
      else if negb (endswith (lower (filename f)) ".pdf") then
        ((ErrorBody "Only PDF files are supported", 400), w)
      else if (List.length (file_content f) =? 0)%nat then
        ((ErrorBody "File is empty", 400), w)
      else
        match update_progress session_id 0 1 "starting" w with
        | None => ((ExceptionBody raised_overflow, 500), w)
        | Some w1 =>
            let '(text_content, w2) :=
              extract_text_from_pdf P (Some session_id) w1 in
            match text_content with
            | [] =>
                ((ErrorBody "Could not extract text from PDF. The file may be corrupted or contain only images without readable text.", 400), w2)
            | _ =>
                match update_progress session_id 1 1 "analyzing" w2 with
                | None => ((ExceptionBody raised_overflow, 500), w2)
                | Some w3 =>
                    match analyze_mortgage_sections text_content with
                    | Raise e => ((ExceptionBody (raised_by_classifier e), 500), w3)
                    | Ok sections =>
                        match update_progress session_id 1 1 "completed" w3 with
                        | None => ((ExceptionBody raised_overflow, 500), w3)
                        | Some w4 =>
                            ((AnalysisBody session_id sections
                                (count_pages text_content)
                                (List.length text_content)
                                "local" (OCR_AVAILABLE P) (PDFPLUMBER_AVAILABLE P),
                              200), w4)
                        end
                    end
                end
            end
        end
  end.

(** The route [/api/progress/<session_id>] (lines 331-337). *)
Definition get_progress (session_id : string) (w : World) : Response :=
  match progress_lookup (progress_data w) session_id with
  | Some entry => (ProgressBody entry, 200)
  | None => (ErrorBody "Session not found", 404)
  end.

End Application.

(** * Vocabulary of the statements *)

(** The invariant of [found_sections]: keys are pairwise distinct and each
    record is stored under its own [section_type]. *)
Definition dict_wf (d : dict) : Prop :=
  NoDup (dict_keys d) /\ forall k v, In (k, v) d -> section_type v = k.

(** The first pattern of [pats] found in [text]: the pattern at which the
    loop over the patterns is left. *)
Definition first_match (pats : list string) (text : string) : option string :=
  find (fun p => PyStr.contains p text) pats.

(** The match of a rule in an item: the pattern and its confidence. *)
Definition rule_match (rule : Rule.t) (item : Item.t) : option (string * Confidence) :=
  let text := PyStr.upper (Item.text item) in
  match first_match (Rule.patterns rule) text with
  | Some p => Some (p, determine_confidence (Rule.patterns rule) p text)
  | None => None
  end.

(** The record inserted for a new label (lines 234-241). *)
Definition new_section
    (rule : Rule.t) (item : Item.t) (p : string) (c : Confidence) : IdentifiedSection :=
  {| section_type := Rule.label rule;
     page := Item.page item;
     confidence := c;
     text_snippet := PyStr.slice_to 100 (Item.text item);
     priority := Rule.priority rule;
     pattern_matched := p |}.

(** What one rule does, for one item, to the entry of its label. *)
Definition upsert (rule : Rule.t) (item : Item.t) (cur : option IdentifiedSection)
  : option IdentifiedSection :=
  match rule_match rule item with
  | None => cur
  | Some (p, c) =>
      match cur with
      | None => Some (new_section rule item p c)
      | Some e =>
          if better_match c (Rule.priority rule) e
          then Some (update_section e (Item.page item) c
                       (PyStr.slice_to 100 (Item.text item)) p)
          else Some e
      end
  end.

(** What the rules of a catalog do, for one item, to the entry of [L]. *)
Definition upsert_all (rules : list Rule.t) (item : Item.t) (L : string)
    (cur : option IdentifiedSection) : option IdentifiedSection :=
  fold_left
    (fun cur rule => if String.eqb L (Rule.label rule) then upsert rule item cur else cur)
    rules cur.

(** The entry of [L] after the items [text_content], starting from [cur]. *)
Definition entry_of (rules : list Rule.t) (L : string) (text_content : list Item.t)
    (cur : option IdentifiedSection) : option IdentifiedSection :=
  fold_left (fun cur item => upsert_all rules item L cur) text_content cur.

(** [a] may stand before [b]: the key of [b] is not below the key of [a]. *)
Definition key_le {A K : Type} (key : A -> K) (lt : K -> K -> bool) (a b : A) : Prop :=
  lt (key b) (key a) = false.

(** The lexicographic order of the keys, on the records themselves. *)
Definition section_le (a b : IdentifiedSection) : Prop :=
  priority a > priority b
  \/ (priority a = priority b
      /\ (page a < page b
          \/ (page a = page b
              /\ String.leb (section_type a) (section_type b) = true))).

(** [P] holds of the entry, when there is one. *)
Definition entry_holds (P : IdentifiedSection -> Prop)
    (cur : option IdentifiedSection) : Prop :=
  forall e, cur = Some e -> P e.

(** The entry of a rule's label after the items, were the rule alone. *)
Definition best (rule : Rule.t) (text_content : list Item.t)
    (cur : option IdentifiedSection) : option IdentifiedSection :=
  fold_left (fun cur item => upsert rule item cur) text_content cur.

(** The strings of [l] are pairwise different. *)
Fixpoint distinct (l : list string) : bool :=
  match l with
  | [] => true
  | x :: l' => negb (existsb (String.eqb x) l') && distinct l'
  end.

(** The inputs and results of the runs used as examples. *)
Definition scenario1 : list Item.t := [Item.mk "PROMISSORY NOTE" 3 "primary"].

Definition scenario1_output : list IdentifiedSection :=
  [ {| section_type := "Promissory Note";
       page := 3;
       confidence := high;
       text_snippet := "PROMISSORY NOTE";
       priority := 10;
       pattern_matched := "PROMISSORY NOTE" |} ].

(** The order of two adjacent records of the result, in the words of the
    specification. *)
Definition adjacent_ordered (a b : IdentifiedSection) : Prop :=
  priority a > priority b
  \/ (priority a = priority b /\ page a <= page b)
  \/ (priority a = priority b /\ page a = page b
      /\ String.leb (section_type a) (section_type b) = true).

(** The test of lines 247-248 as a proposition. *)
Definition outranks
    (confidence0 : Confidence) (priority0 : Z) (existing : IdentifiedSection) : Prop :=
  confidence_rank confidence0 > confidence_rank (confidence existing)
  \/ (confidence0 = confidence existing /\ priority0 >= priority existing).

Definition affidavit_rule : Rule.t :=
  Rule.mk ["AFFIDAVIT"; "SWORN STATEMENT"] "Affidavit" 5.

Definition affidavit_page2 : IdentifiedSection :=
  mkSection "Affidavit" 2 high "AFFIDAVIT" 5 "AFFIDAVIT".

(** The rank of the match of a rule in an item, [0] without a match. *)
Definition match_rank (rule : Rule.t) (item : Item.t) : Z :=
  match rule_match rule item with
  | Some (_, c) => confidence_rank c
  | None => 0
  end.

(** The best rank of a match of the rule in the items. *)
Definition max_rank (rule : Rule.t) (text_content : list Item.t) : Z :=
  fold_right (fun item acc => Z.max (match_rank rule item) acc) 0 text_content.

(** The rank of the confidence of an entry, [0] without an entry. *)
Definition entry_rank (cur : option IdentifiedSection) : Z :=
  match cur with
  | Some e => confidence_rank (confidence e)
  | None => 0
  end.

(** The fields of a record that do not depend on which of several equally
    ranked matches was kept last. *)
Definition tier (s : IdentifiedSection) : string * Confidence * Z :=
  (section_type s, confidence s, priority s).

Definition summary (s : IdentifiedSection) : string * Z * Confidence * Z :=
  (section_type s, page s, confidence s, priority s).

(** A reordering of the items that keeps the page number at every index. *)
Definition same_page_reordering (l l' : list Item.t) : Prop :=
  Permutation l l' /\ map Item.page l = map Item.page l'.

(** On page-ascending input, the page of an entry is the greatest page of
    an item that matches the rule with the entry's confidence. *)
Definition top_page (rule : Rule.t) (items : list Item.t) (e : IdentifiedSection) : Prop :=
  (exists i, In i items
             /\ match_rank rule i = confidence_rank (confidence e)
             /\ Item.page i = page e)
  /\ (forall i, In i items ->
                match_rank rule i = confidence_rank (confidence e) ->
                Item.page i <= page e).

(** The order of the sort on the summaries. *)
Definition summary_le (a b : string * Z * Confidence * Z) : Prop :=
  let '(la, pa, _, ra) := a in
  let '(lb, pb, _, rb) := b in
  ra > rb \/ (ra = rb /\ (pa < pb \/ (pa = pb /\ String.leb la lb = true))).

Definition same_page_a : list Item.t :=
  [Item.mk "MORTGAGE" 1 "pdfplumber"; Item.mk "DEED OF TRUST" 1 "pdfplumber"].

Definition same_page_b : list Item.t :=
  [Item.mk "DEED OF TRUST" 1 "pdfplumber"; Item.mk "MORTGAGE" 1 "pdfplumber"].

Definition same_page_a_output : list IdentifiedSection :=
  [ mkSection "Mortgage" 1 high "DEED OF TRUST" 10 "DEED OF TRUST";
    mkSection "Deed" 1 high "DEED OF TRUST" 6 "DEED" ].

Definition same_page_b_output : list IdentifiedSection :=
  [ mkSection "Mortgage" 1 high "MORTGAGE" 10 "MORTGAGE";
    mkSection "Deed" 1 high "DEED OF TRUST" 6 "DEED" ].

(** The item contains, upper-cased, some pattern of some rule. *)
Definition matches_some_rule (item : Item.t) : bool :=
  existsb
    (fun rule =>
       existsb (fun p => PyStr.contains p (PyStr.upper (Item.text item)))
         (Rule.patterns rule))
    section_rules.

(** An entry that carries the label and the priority of the rule. *)
Definition entry_of_rule (rule : Rule.t) (cur : option IdentifiedSection) : Prop :=
  forall e, cur = Some e ->
            section_type e = Rule.label rule /\ priority e = Rule.priority rule.

(** The items gathered from the pages that a library returned, numbered
    from [page_num]; pages on which the library failed are skipped. *)
Fixpoint collect {A : Type} (per_page : Z -> A -> list Item.t)
    (page_num : Z) (pages : list (outcome A)) : list Item.t :=
  match pages with
  | [] => []
  | Returned a :: rest => per_page page_num a ++ collect per_page (page_num + 1) rest
  | Failed _ :: rest => collect per_page (page_num + 1) rest
  end.

(** The items of all the pages of the text layer. *)
Definition text_layer_items (P : Providers) : list Item.t :=
  if PDFPLUMBER_AVAILABLE P then
    match pdf_pages P with
    | Returned pages => collect pdfplumber_page_items 1 pages
    | Failed _ => []
    end
  else [].

(** The items of all the pages read by OCR. *)
Definition ocr_layer_items (P : Providers) : list Item.t :=
  match ocr_images P with
  | Returned images => collect ocr_page_items 1 images
  | Failed _ => []
  end.

(** The choice of lines 114 and 161-163 between the two. *)
Definition extracted_items (P : Providers) : list Item.t :=
  if (List.length (text_layer_items P) <? 10)%nat && OCR_AVAILABLE P then
    match ocr_layer_items P with
    | [] => text_layer_items P
    | items => items
    end
  else text_layer_items P.

(** What the libraries deliver in the example: a text layer of one page. *)
Definition example_providers : Providers :=
  {| PDFPLUMBER_AVAILABLE := true;
     OCR_AVAILABLE := false;
     pdf_pages :=
       Returned [Returned (Some (String.append "  PROMISSORY NOTE "
                                   (String "010"%char "abc")))];
     ocr_images := Failed "OCR dependencies not available" |}.

(** A scanned document: no text layer, one page read by OCR. *)
Definition scanned_providers : Providers :=
  {| PDFPLUMBER_AVAILABLE := true;
     OCR_AVAILABLE := true;
     pdf_pages := Returned [Returned None];
     ocr_images := Returned [Returned "PROMISSORY NOTE"] |}.

Definition example_clock (n : nat) : string := "2024-01-01T00:00:00".

Definition example_world : World := {| progress_data := []; clock_reads := 0 |}.

(** The upload fails one of the four checks of lines 278-295. *)
Definition upload_rejected (file : option Upload) : Prop :=
  file = None
  \/ exists f, file = Some f
               /\ (filename f = EmptyString
                   \/ endswith (lower (filename f)) ".pdf" = false
                   \/ file_content f = []).

(** The upload passes the four checks of lines 278-295. *)
Definition upload_accepted (file : option Upload) : Prop :=
  exists f, file = Some f
            /\ filename f <> EmptyString
            /\ endswith (lower (filename f)) ".pdf" = true
            /\ file_content f <> [].

Definition example_upload : Upload :=
  {| filename := "Closing Package.PDF"; file_content := [Byte.x25; Byte.x50] |}.

(** A text layer of one page without any pattern of the catalog. *)
Definition plain_providers : Providers :=
  {| PDFPLUMBER_AVAILABLE := true;
     OCR_AVAILABLE := false;
     pdf_pages := Returned [Returned (Some "Thank you for your business")];
     ocr_images := Failed "OCR dependencies not available" |}.

(** An input with several items per label and several labels, in an
    order of first matches that differs from the order of the result. *)
Definition rich_input : list Item.t :=
  [ Item.mk "AFFIDAVIT" 1 "pdfplumber";
    Item.mk "SWORN STATEMENT" 4 "pdfplumber";
    Item.mk "WARRANTY DEED" 3 "pdfplumber";
    Item.mk "MORTGAGE AND PROMISSORY NOTE" 2 "pdfplumber";
    Item.mk "please see the note attached to this letter for all of the details"
      5 "pdfplumber";
    Item.mk "SETTLEMENT STATEMENT" 2 "pdfplumber";
    Item.mk "HUD-1" 1 "pdfplumber" ].

Definition rich_output : list IdentifiedSection :=
  [ mkSection "Mortgage" 2 high "MORTGAGE AND PROMISSORY NOTE" 10 "MORTGAGE";
    mkSection "Promissory Note" 2 high "MORTGAGE AND PROMISSORY NOTE" 10
      "PROMISSORY NOTE";
    mkSection "Settlement Statement" 1 high "HUD-1" 9 "HUD-1";
    mkSection "Deed" 3 high "WARRANTY DEED" 6 "DEED";
    mkSection "Affidavit" 4 high "SWORN STATEMENT" 5 "SWORN STATEMENT" ].

(** No two different items of [l] tie for the rule: at most one item
    matches it with the best confidence that an item of [l] reaches.  (Two
    matches of one rule have the same priority, so a tie in confidence is
    a tie in confidence and priority.) *)
Definition no_tie (rule : Rule.t) (l : list Item.t) : Prop :=
  forall i j,
    In i l -> In j l ->
    0 < match_rank rule i ->
    match_rank rule i = max_rank rule l ->
    match_rank rule j = max_rank rule l ->
    i = j.

(** No two different items of one page tie for the rule. *)
Definition no_same_page_tie (rule : Rule.t) (l : list Item.t) : Prop :=
  forall i j,
    In i l -> In j l ->
    Item.page i = Item.page j ->
    0 < match_rank rule i ->
    match_rank rule i = max_rank rule l ->
    match_rank rule j = max_rank rule l ->
    i = j.

(** Two items of page 1 and one of page 2, without a tie. *)
Definition untied_a : list Item.t :=
  [ Item.mk "MORTGAGE" 1 "pdfplumber";
    Item.mk "PROMISSORY NOTE" 1 "pdfplumber";
    Item.mk "AFFIDAVIT" 2 "pdfplumber" ].

Definition untied_b : list Item.t :=
  [ Item.mk "PROMISSORY NOTE" 1 "pdfplumber";
    Item.mk "MORTGAGE" 1 "pdfplumber";
    Item.mk "AFFIDAVIT" 2 "pdfplumber" ].

(** Page-ascending items with a tie between pages 1 and 2 for the rule
    "Affidavit", and none within a page. *)
Definition cross_page_a : list Item.t :=
  [ Item.mk "AFFIDAVIT" 1 "pdfplumber";
    Item.mk "SWORN STATEMENT" 2 "pdfplumber";
    Item.mk "MORTGAGE" 2 "pdfplumber" ].

Definition cross_page_b : list Item.t :=
  [ Item.mk "AFFIDAVIT" 1 "pdfplumber";
    Item.mk "MORTGAGE" 2 "pdfplumber";
    Item.mk "SWORN STATEMENT" 2 "pdfplumber" ].

(** * Verification *)

(** ** The dictionary *)

Lemma dict_contains_lookup (d : dict) (k : string) :
  dict_contains d k = match dict_lookup d k with Some _ => true | None => false end.
Proof.
  induction d as [|[k' v] d IH]; simpl; [reflexivity|].
  destruct (String.eqb k k'); simpl; auto.
Qed.

Lemma dict_lookup_setitem (d : dict) (k : string) (v : IdentifiedSection) (k' : string) :
  dict_lookup (dict_setitem d k v) k'
  = if String.eqb k' k then Some v else dict_lookup d k'.
Proof.
  induction d as [|[k0 v0] d IH]; simpl.
  - destruct (String.eqb k' k); reflexivity.
  - destruct (String.eqb_spec k k0) as [->|Hk]; simpl.
    + destruct (String.eqb k' k0); reflexivity.
    + rewrite IH. destruct (String.eqb_spec k' k0) as [->|]; [|reflexivity].
      destruct (String.eqb_spec k0 k); congruence.
Qed.

Lemma dict_keys_setitem (d : dict) (k : string) (v : IdentifiedSection) :
  dict_keys (dict_setitem d k v)
  = if dict_contains d k then dict_keys d else dict_keys d ++ [k].
Proof.
  induction d as [|[k0 v0] d IH]; simpl; [reflexivity|].
  destruct (String.eqb k k0); simpl; [reflexivity|].
  fold (dict_keys (dict_setitem d k v)). rewrite IH.
  destruct (dict_contains d k); reflexivity.
Qed.

Lemma dict_contains_keys (d : dict) (k : string) :
  dict_contains d k = true <-> In k (dict_keys d).
Proof.
  unfold dict_contains, dict_keys. rewrite existsb_exists, in_map_iff. split.
  - intros [kv [Hin Heq]]. exists kv. apply String.eqb_eq in Heq. auto.
  - intros [kv [Heq Hin]]. exists kv. split; [assumption|].
    apply String.eqb_eq. auto.
Qed.

Lemma dict_In_setitem (d : dict) (k : string) (v : IdentifiedSection) kv :
  In kv (dict_setitem d k v) -> kv = (k, v) \/ In kv d.
Proof.
  induction d as [|[k0 v0] d IH]; simpl.
  - intros [<-|[]]. auto.
  - destruct (String.eqb_spec k k0) as [->|Hk]; simpl.
    + intros [<-|H]; auto.
    + intros [<-|H]; auto. destruct (IH H); auto.
Qed.

Lemma dict_lookup_In (d : dict) (k : string) (v : IdentifiedSection) :
  dict_lookup d k = Some v -> In (k, v) d.
Proof.
  induction d as [|[k0 v0] d IH]; simpl; [discriminate|].
  destruct (String.eqb_spec k k0) as [->|Hk].
  - intros [= ->]. auto.
  - auto.
Qed.

Lemma dict_In_lookup (d : dict) (k : string) (v : IdentifiedSection) :
  NoDup (dict_keys d) -> In (k, v) d -> dict_lookup d k = Some v.
Proof.
  induction d as [|[k0 v0] d IH]; simpl; [intros _ []|].
  intros Hnd [Heq|Hin].
  - injection Heq as -> ->. now rewrite String.eqb_refl.
  - inversion Hnd as [|? ? Hnotin Hnd']; subst.
    destruct (String.eqb_spec k k0) as [->|Hk]; [|auto].
    exfalso. apply Hnotin. unfold dict_keys. apply in_map_iff.
    exists (k0, v). auto.
Qed.

Lemma dict_wf_nil : dict_wf [].
Proof. split; [constructor | intros k v []]. Qed.

Lemma dict_wf_setitem (d : dict) (k : string) (v : IdentifiedSection) :
  dict_wf d -> section_type v = k -> dict_wf (dict_setitem d k v).
Proof.
  intros [Hnd Hst] Hv. split.
  - rewrite dict_keys_setitem.
    destruct (dict_contains d k) eqn:Hc; [assumption|].
    apply NoDup_app; [assumption | repeat constructor; intros [] | ].
    intros x Hx [<-|[]]. apply dict_contains_keys in Hx. congruence.
  - intros k' v' Hin. destruct (dict_In_setitem _ _ _ _ Hin) as [Heq|Hin'].
    + now injection Heq as -> ->.
    + auto.
Qed.

Lemma dict_values_In (d : dict) (v : IdentifiedSection) :
  dict_wf d ->
  (In v (dict_values d) <-> dict_lookup d (section_type v) = Some v).
Proof.
  intros [Hnd Hst]. unfold dict_values. rewrite in_map_iff. split.
  - intros [[k v'] [Heq Hin]]. simpl in Heq. subst v'.
    rewrite (Hst _ _ Hin). now apply dict_In_lookup.
  - intros Hl. exists (section_type v, v). split; [reflexivity|].
    now apply dict_lookup_In.
Qed.

Lemma dict_wf_values_NoDup (d : dict) :
  dict_wf d -> NoDup (map section_type (dict_values d)).
Proof.
  intros [Hnd Hst]. unfold dict_values. rewrite map_map.
  replace (map (fun kv => section_type (snd kv)) d) with (dict_keys d); [assumption|].
  unfold dict_keys. apply map_ext_in. intros [k v] Hin. simpl.
  symmetry. now apply Hst.
Qed.

(** ** The effect of the loops on one label *)

Lemma keep_best_absent found item rule page0 c p :
  dict_lookup found (Rule.label rule) = None ->
  keep_best found item rule page0 c p
  = Ok (dict_setitem found (Rule.label rule)
          {| section_type := Rule.label rule; page := page0; confidence := c;
             text_snippet := PyStr.slice_to 100 (Item.text item);
             priority := Rule.priority rule; pattern_matched := p |}).
Proof.
  intros Hl. unfold keep_best. rewrite dict_contains_lookup, Hl. reflexivity.
Qed.

Lemma keep_best_present found item rule page0 c p existing :
  dict_lookup found (Rule.label rule) = Some existing ->
  keep_best found item rule page0 c p
  = Ok (if better_match c (Rule.priority rule) existing
        then dict_setitem found (Rule.label rule)
               (update_section existing page0 c
                  (PyStr.slice_to 100 (Item.text item)) p)
        else found).
Proof.
  intros Hl. unfold keep_best, dict_getitem.
  rewrite dict_contains_lookup, Hl. simpl.
  destruct (better_match c (Rule.priority rule) existing); reflexivity.
Qed.

Lemma scan_patterns_first_match found item text page0 rule pats :
  scan_patterns found item text page0 rule pats
  = match first_match pats text with
    | None => Ok found
    | Some p =>
        keep_best found item rule page0
          (determine_confidence (Rule.patterns rule) p text) p
    end.
Proof.
  induction pats as [|p pats IH]; simpl; [reflexivity|].
  destruct (PyStr.contains p text); [reflexivity | exact IH].
Qed.

Lemma scan_rule_spec found item rule :
  dict_wf found ->
  exists found',
    scan_patterns found item (PyStr.upper (Item.text item)) (Item.page item)
      rule (Rule.patterns rule) = Ok found'
    /\ dict_wf found'
    /\ forall L, dict_lookup found' L
                 = if String.eqb L (Rule.label rule)
                   then upsert rule item (dict_lookup found L)
                   else dict_lookup found L.
Proof.
  intros Hwf. rewrite scan_patterns_first_match. unfold upsert, rule_match.
  destruct (first_match (Rule.patterns rule) (PyStr.upper (Item.text item)))
    as [p|].
  - destruct (dict_lookup found (Rule.label rule)) as [e|] eqn:Hl.
    + rewrite (keep_best_present _ _ _ _ _ _ _ Hl).
      destruct (better_match _ (Rule.priority rule) e) eqn:Hb.
      * eexists. split; [reflexivity|]. split.
        -- apply dict_wf_setitem; [assumption|]. simpl.
           destruct Hwf as [_ Hst]. apply Hst. now apply dict_lookup_In.
        -- intros L. rewrite dict_lookup_setitem.
           destruct (String.eqb_spec L (Rule.label rule)) as [->|]; [|reflexivity].
           now rewrite Hl, Hb.
      * eexists. split; [reflexivity|]. split; [assumption|].
        intros L. destruct (String.eqb_spec L (Rule.label rule)) as [->|]; [|reflexivity].
        now rewrite Hl, Hb.
    + rewrite (keep_best_absent _ _ _ _ _ _ Hl).
      eexists. split; [reflexivity|]. split.
      * apply dict_wf_setitem; [assumption | reflexivity].
      * intros L. rewrite dict_lookup_setitem.
        destruct (String.eqb_spec L (Rule.label rule)) as [->|]; [|reflexivity].
        now rewrite Hl.
  - exists found. split; [reflexivity|]. split; [assumption|].
    intros L. destruct (String.eqb L (Rule.label rule)); reflexivity.
Qed.

Lemma scan_rules_spec rules item : forall found,
  dict_wf found ->
  exists found',
    scan_rules found item (PyStr.upper (Item.text item)) (Item.page item) rules
    = Ok found'
    /\ dict_wf found'
    /\ forall L, dict_lookup found' L = upsert_all rules item L (dict_lookup found L).
Proof.
  induction rules as [|rule rules IH]; intros found Hwf; simpl.
  - exists found. auto.
  - destruct (scan_rule_spec found item rule Hwf) as [f1 [-> [Hwf1 Hl1]]]. simpl.
    destruct (IH f1 Hwf1) as [f2 [-> [Hwf2 Hl2]]].
    exists f2. split; [reflexivity|]. split; [assumption|].
    intros L. rewrite Hl2, Hl1. reflexivity.
Qed.

Lemma scan_items_spec rules text_content : forall found,
  dict_wf found ->
  exists found',
    scan_items rules found text_content = Ok found'
    /\ dict_wf found'
    /\ forall L, dict_lookup found' L = entry_of rules L text_content (dict_lookup found L).
Proof.
  induction text_content as [|item rest IH]; intros found Hwf; simpl.
  - exists found. auto.
  - unfold scan_item.
    destruct (scan_rules_spec rules item found Hwf) as [f1 [-> [Hwf1 Hl1]]]. simpl.
    destruct (IH f1 Hwf1) as [f2 [-> [Hwf2 Hl2]]].
    exists f2. split; [reflexivity|]. split; [assumption|].
    intros L. rewrite Hl2, Hl1. reflexivity.
Qed.

(** ** Sorting *)

Section PySortedFacts.
Context {A K : Type} (key : A -> K) (lt : K -> K -> bool).
Hypothesis lt_asym : forall x y, lt x y = true -> lt y x = false.
Hypothesis nlt_trans :
  forall x y z, lt y x = false -> lt z y = false -> lt z x = false.

Lemma insert_sorted_perm (x : A) (l : list A) :
  Permutation (insert_sorted key lt x l) (x :: l).
Proof.
  induction l as [|y l IH]; simpl; [reflexivity|].
  destruct (lt (key y) (key x)); [|reflexivity].
  rewrite IH. apply perm_swap.
Qed.

Lemma sorted_perm (l : list A) : Permutation (sorted key lt l) l.
Proof.
  induction l as [|x l IH]; simpl; [reflexivity|].
  rewrite insert_sorted_perm. now constructor.
Qed.

Lemma insert_sorted_StronglySorted (x : A) (l : list A) :
  StronglySorted (key_le key lt) l ->
  StronglySorted (key_le key lt) (insert_sorted key lt x l).
Proof.
  induction 1 as [|y l Hs IH Hall]; simpl.
  - repeat constructor.
  - destruct (lt (key y) (key x)) eqn:Hyx.
    + constructor; [assumption|].
      apply (Permutation_Forall (Permutation_sym (insert_sorted_perm x l))).
      constructor; [|assumption]. unfold key_le. now apply lt_asym.
    + constructor; [now constructor|].
      constructor; [exact Hyx|].
      eapply Forall_impl; [|exact Hall].
      intros z Hz. unfold key_le in *. now apply (nlt_trans _ (key y)).
Qed.

Lemma sorted_StronglySorted (l : list A) :
  StronglySorted (key_le key lt) (sorted key lt l).
Proof.
  induction l as [|x l IH]; simpl; [constructor|].
  now apply insert_sorted_StronglySorted.
Qed.
End PySortedFacts.

(** A list has at most one sorted arrangement when the order is
    antisymmetric on its members. *)
Lemma StronglySorted_perm_unique {A : Type} (R : A -> A -> Prop) (l1 : list A) :
  forall l2,
    StronglySorted R l1 -> StronglySorted R l2 -> Permutation l1 l2 ->
    (forall a b, In a l1 -> In b l1 -> R a b -> R b a -> a = b) ->
    l1 = l2.
Proof.
  induction l1 as [|a l1 IH]; intros l2 S1 S2 P anti.
  - now apply Permutation_nil in P.
  - destruct l2 as [|b l2].
    + symmetry in P. now apply Permutation_nil_cons in P.
    + assert (Ha : In a (b :: l2)) by (apply (Permutation_in _ P); now left).
      assert (Hb : In b (a :: l1))
        by (apply (Permutation_in _ (Permutation_sym P)); now left).
      inversion S1 as [|? ? S1' F1]; subst.
      inversion S2 as [|? ? S2' F2]; subst.
      assert (a = b) as <-.
      { destruct Hb as [Hb|Hb]; [assumption|].
        destruct Ha as [Ha|Ha]; [now symmetry|].
        rewrite Forall_forall in F1, F2.
        apply anti; [now left | now right | now apply F1 | now apply F2]. }
      f_equal. apply IH; try assumption.
      * now apply Permutation_cons_inv in P.
      * intros x y Hx Hy. apply anti; now right.
Qed.

Lemma StronglySorted_map {A B : Type} (f : A -> B) (R : B -> B -> Prop) (l : list A) :
  StronglySorted (fun a b => R (f a) (f b)) l -> StronglySorted R (map f l).
Proof.
  induction 1 as [|a l Hs IH Hall]; simpl; constructor; [assumption|].
  rewrite Forall_forall in *. intros y Hy.
  apply in_map_iff in Hy. destruct Hy as [x [<- Hx]]. now apply Hall.
Qed.

(** The order of the sort keys. *)

Lemma string_leb_trans (a : string) :
  forall b c, String.leb a b = true -> String.leb b c = true -> String.leb a c = true.
Proof.
  unfold String.leb.
  induction a as [|x a IH]; intros [|y b] [|z c]; simpl; try congruence.
  unfold Ascii.compare.
  destruct (N.compare_spec (N_of_ascii x) (N_of_ascii y));
    destruct (N.compare_spec (N_of_ascii y) (N_of_ascii z));
    destruct (N.compare_spec (N_of_ascii x) (N_of_ascii z));
    try congruence; try lia.
  apply IH.
Qed.

Lemma string_ltb_leb (a b : string) : String.ltb a b = negb (String.leb b a).
Proof.
  unfold String.ltb, String.leb. rewrite (String.compare_antisym a b).
  destruct (String.compare b a); reflexivity.
Qed.

Lemma key_le_section_le (a b : IdentifiedSection) :
  key_le sort_key key_ltb a b <-> section_le a b.
Proof.
  unfold key_le, sort_key, key_ltb, section_le.
  rewrite string_ltb_leb.
  destruct (String.leb (section_type a) (section_type b)); simpl;
    rewrite !orb_false_iff, ?andb_false_iff, ?orb_false_iff, ?andb_false_iff;
    rewrite ?Z.ltb_ge, ?Z.eqb_neq; intuition (try lia; try congruence).
Qed.

Lemma key_ltb_asym (x y : Z * Z * string) : key_ltb x y = true -> key_ltb y x = false.
Proof.
  destruct x as [[x1 x2] x3], y as [[y1 y2] y3]. unfold key_ltb.
  rewrite (string_ltb_leb x3 y3), (string_ltb_leb y3 x3).
  destruct (String.leb_total x3 y3) as [H|H]; rewrite H; simpl;
    destruct (String.leb y3 x3) eqn:E1; destruct (String.leb x3 y3) eqn:E2;
    try discriminate; simpl;
    rewrite ?orb_true_iff, ?andb_true_iff, ?orb_false_iff, ?andb_false_iff,
            ?orb_true_iff, ?andb_true_iff, ?orb_false_iff, ?andb_false_iff;
    rewrite ?Z.ltb_lt, ?Z.ltb_ge, ?Z.eqb_eq, ?Z.eqb_neq; intuition lia.
Qed.

Lemma key_ltb_false_iff (x y : Z * Z * string) :
  key_ltb y x = false
  <-> (fst (fst x) < fst (fst y)
       \/ (fst (fst x) = fst (fst y)
           /\ (snd (fst x) < snd (fst y)
               \/ (snd (fst x) = snd (fst y) /\ String.leb (snd x) (snd y) = true)))).
Proof.
  destruct x as [[x1 x2] x3], y as [[y1 y2] y3]. unfold key_ltb. simpl.
  rewrite string_ltb_leb.
  destruct (String.leb x3 y3); simpl;
    rewrite !orb_false_iff, ?andb_false_iff, ?orb_false_iff, ?andb_false_iff;
    rewrite ?Z.ltb_ge, ?Z.eqb_neq; intuition (try lia; try congruence).
Qed.

Lemma key_ltb_nlt_trans (x y z : Z * Z * string) :
  key_ltb y x = false -> key_ltb z y = false -> key_ltb z x = false.
Proof.
  rewrite !key_ltb_false_iff.
  intros [H1|[H1 [H2|[H2 H3]]]] [G1|[G1 [G2|[G2 G3]]]];
    try (left; lia); right; (split; [lia|]); try (left; lia).
  right. split; [lia|]. now apply (string_leb_trans _ (snd y)).
Qed.

Lemma section_le_antisym (a b : IdentifiedSection) :
  section_le a b -> section_le b a -> section_type a = section_type b.
Proof.
  unfold section_le.
  intros [H1|[H1 [H2|[H2 H3]]]] [G1|[G1 [G2|[G2 G3]]]]; try lia.
  now apply String.leb_antisym.
Qed.

(** The sort of line 258 on the values of the dictionary. *)
Lemma sort_sections_perm (l : list IdentifiedSection) :
  Permutation (sorted sort_key key_ltb l) l.
Proof. apply sorted_perm. Qed.

Lemma sort_sections_sorted (l : list IdentifiedSection) :
  StronglySorted section_le (sorted sort_key key_ltb l).
Proof.
  assert (H : StronglySorted (key_le sort_key key_ltb) (sorted sort_key key_ltb l)).
  { apply sorted_StronglySorted.
    - exact key_ltb_asym.
    - exact key_ltb_nlt_trans. }
  induction H as [|a l' Hs IH Hall]; constructor; [assumption|].
  eapply Forall_impl; [|exact Hall]. intros b. apply key_le_section_le.
Qed.

Lemma NoDup_map_injective_on {A B : Type} (f : A -> B) (l : list A) (a b : A) :
  NoDup (map f l) -> In a l -> In b l -> f a = f b -> a = b.
Proof.
  induction l as [|x l IH]; simpl; [intros _ []|].
  intros Hnd Ha Hb Hf. inversion Hnd as [|? ? Hnotin Hnd']; subst.
  destruct Ha as [->|Ha], Hb as [->|Hb]; auto.
  - exfalso. apply Hnotin. rewrite Hf. now apply in_map.
  - exfalso. apply Hnotin. rewrite <- Hf. now apply in_map.
Qed.

(** Two sorted lists of records with pairwise distinct section types and
    the same members are equal. *)
Lemma sorted_sections_unique (l1 l2 : list IdentifiedSection) :
  NoDup (map section_type l1) -> NoDup (map section_type l2) ->
  StronglySorted section_le l1 -> StronglySorted section_le l2 ->
  (forall s, In s l1 <-> In s l2) ->
  l1 = l2.
Proof.
  intros N1 N2 S1 S2 Hin.
  apply (StronglySorted_perm_unique section_le); try assumption.
  - apply NoDup_Permutation; [| |assumption].
    + now apply NoDup_map_inv in N1.
    + now apply NoDup_map_inv in N2.
  - intros a b Ha Hb Hab Hba.
    apply (NoDup_map_injective_on section_type l1); try assumption.
    now apply section_le_antisym.
Qed.

(** ** The result of a run *)

Lemma analyze_with_spec (rules : list Rule.t) (text_content : list Item.t) :
  exists found,
    scan_items rules [] text_content = Ok found
    /\ dict_wf found
    /\ (forall L, dict_lookup found L = entry_of rules L text_content None)
    /\ analyze_with rules text_content
       = Ok (sorted sort_key key_ltb (dict_values found)).
Proof.
  destruct (scan_items_spec rules text_content [] dict_wf_nil) as [found [H [Hwf Hl]]].
  exists found. split; [assumption|]. split; [assumption|]. split; [assumption|].
  unfold analyze_with. rewrite H. reflexivity.
Qed.

Lemma analyze_with_total (rules : list Rule.t) (text_content : list Item.t) :
  exists sections, analyze_with rules text_content = Ok sections.
Proof.
  destruct (analyze_with_spec rules text_content) as [found [_ [_ [_ H]]]].
  eauto.
Qed.

Lemma analyze_with_output (rules : list Rule.t) (text_content : list Item.t)
    (sections : list IdentifiedSection) :
  analyze_with rules text_content = Ok sections ->
  NoDup (map section_type sections)
  /\ StronglySorted section_le sections
  /\ (forall s, In s sections
                <-> entry_of rules (section_type s) text_content None = Some s).
Proof.
  destruct (analyze_with_spec rules text_content) as [found [_ [Hwf [Hl H]]]].
  rewrite H. intros [= <-].
  pose proof (sort_sections_perm (dict_values found)) as P.
  split; [|split].
  - apply (Permutation_NoDup
             (Permutation_map section_type (Permutation_sym P))).
    now apply dict_wf_values_NoDup.
  - apply sort_sections_sorted.
  - intros s. rewrite <- Hl, <- (dict_values_In _ _ Hwf). split.
    + apply Permutation_in. exact P.
    + apply Permutation_in. now apply Permutation_sym.
Qed.

(** Two runs that leave the same entry under every label return the same
    list. *)
Lemma analyze_with_ext rules1 rules2 items1 items2 :
  (forall L, entry_of rules1 L items1 None = entry_of rules2 L items2 None) ->
  analyze_with rules1 items1 = analyze_with rules2 items2.
Proof.
  intros Hext.
  destruct (analyze_with_total rules1 items1) as [o1 H1].
  destruct (analyze_with_total rules2 items2) as [o2 H2].
  rewrite H1, H2. f_equal.
  destruct (analyze_with_output _ _ _ H1) as [N1 [S1 I1]].
  destruct (analyze_with_output _ _ _ H2) as [N2 [S2 I2]].
  apply sorted_sections_unique; try assumption.
  intros s. rewrite I1, I2, Hext. reflexivity.
Qed.

(** An invariance principle for the entries: a property that holds of
    every freshly inserted record and survives every update holds of
    every entry. *)
Section EntryInvariant.
Variable rules : list Rule.t.
Variable P : IdentifiedSection -> Prop.
Hypothesis P_new :
  forall rule item p c,
    In rule rules -> rule_match rule item = Some (p, c) ->
    P (new_section rule item p c).
Hypothesis P_update :
  forall rule item p c e,
    In rule rules -> rule_match rule item = Some (p, c) -> P e ->
    P (update_section e (Item.page item) c
         (PyStr.slice_to 100 (Item.text item)) p).

Local Abbreviation holds := (entry_holds P).

Lemma upsert_invariant rule item cur :
  In rule rules -> holds cur -> holds (upsert rule item cur).
Proof.
  intros Hin Hcur e. unfold upsert.
  destruct (rule_match rule item) as [[p c]|] eqn:Hm; [|apply Hcur].
  destruct cur as [e0|].
  - destruct (better_match c (Rule.priority rule) e0); intros [= <-].
    + eapply P_update; eauto.
    + now apply Hcur.
  - intros [= <-]. now apply P_new.
Qed.

Lemma upsert_all_invariant item L : forall rs cur,
  incl rs rules -> holds cur -> holds (upsert_all rs item L cur).
Proof.
  induction rs as [|r rs IH]; intros cur Hincl Hcur; simpl; [assumption|].
  apply IH.
  - intros x Hx. apply Hincl. now right.
  - destruct (String.eqb L (Rule.label r)); [|assumption].
    apply upsert_invariant; [|assumption]. apply Hincl. now left.
Qed.

Lemma entry_of_invariant L : forall text_content cur e,
  holds cur -> entry_of rules L text_content cur = Some e -> P e.
Proof.
  induction text_content as [|item rest IH]; intros cur e Hcur; simpl.
  - apply Hcur.
  - apply IH. apply upsert_all_invariant; [apply incl_refl | assumption].
Qed.
End EntryInvariant.

(** ** Catalogs with pairwise distinct labels *)

Lemma upsert_all_absent item L : forall rules cur,
  ~ In L (map Rule.label rules) -> upsert_all rules item L cur = cur.
Proof.
  induction rules as [|r rs IH]; intros cur Hnotin; simpl; [reflexivity|].
  simpl in Hnotin.
  destruct (String.eqb_spec L (Rule.label r)) as [->|Hne].
  - exfalso. apply Hnotin. now left.
  - apply IH. intros Hin. apply Hnotin. now right.
Qed.

Lemma upsert_all_unique item rule : forall rules cur,
  NoDup (map Rule.label rules) -> In rule rules ->
  upsert_all rules item (Rule.label rule) cur = upsert rule item cur.
Proof.
  induction rules as [|r rs IH]; intros cur Hnd Hin; simpl; [destruct Hin|].
  simpl in Hnd. inversion Hnd as [|? ? Hnotin Hnd']; subst.
  destruct Hin as [->|Hin].
  - rewrite String.eqb_refl. now apply upsert_all_absent.
  - destruct (String.eqb_spec (Rule.label rule) (Rule.label r)) as [Heq|Hne].
    + exfalso. apply Hnotin. rewrite <- Heq. now apply in_map.
    + now apply IH.
Qed.

Lemma entry_of_absent rules L : forall text_content cur,
  ~ In L (map Rule.label rules) -> entry_of rules L text_content cur = cur.
Proof.
  induction text_content as [|item rest IH]; intros cur Hnotin; simpl; [reflexivity|].
  rewrite upsert_all_absent by assumption. now apply IH.
Qed.

Lemma entry_of_unique rules rule : forall text_content cur,
  NoDup (map Rule.label rules) -> In rule rules ->
  entry_of rules (Rule.label rule) text_content cur = best rule text_content cur.
Proof.
  induction text_content as [|item rest IH]; intros cur Hnd Hin; simpl; [reflexivity|].
  rewrite upsert_all_unique by assumption. now apply IH.
Qed.

Lemma distinct_NoDup (l : list string) : distinct l = true -> NoDup l.
Proof.
  induction l as [|x l IH]; simpl; [constructor|].
  rewrite andb_true_iff, negb_true_iff. intros [Hx Hl].
  constructor; [|now apply IH].
  intros Hin. assert (existsb (String.eqb x) l = true); [|congruence].
  apply existsb_exists. exists x. split; [assumption | apply String.eqb_refl].
Qed.

Lemma section_rules_labels_NoDup : NoDup (map Rule.label section_rules).
Proof. apply distinct_NoDup. vm_compute. reflexivity. Qed.

(** ** Properties of the classifier *)

(** C9: on the single item with text "PROMISSORY NOTE" on page 3 the
    classifier returns exactly one record: section type "Promissory Note",
    page 3, confidence high, matched pattern "PROMISSORY NOTE", priority 10. *)
Theorem scenario1_promissory_note :
  analyze_mortgage_sections [Item.mk "PROMISSORY NOTE" 3 "primary"]
  = Ok [ {| section_type := "Promissory Note";
            page := 3;
            confidence := high;
            text_snippet := "PROMISSORY NOTE";
            priority := 10;
            pattern_matched := "PROMISSORY NOTE" |} ].
Proof. vm_compute. reflexivity. Qed.

(** C1: the returned list holds at most one record per label: no two of
    its records have the same section type. *)
Theorem output_labels_unique (text_content : list Item.t)
    (sections : list IdentifiedSection) :
  analyze_mortgage_sections text_content = Ok sections ->
  NoDup (map section_type sections).
Proof.
  intros H. now destruct (analyze_with_output _ _ _ H) as [Hnd _].
Qed.

Lemma output_labels_unique_witness : NoDup (map section_type rich_output).
Proof.
  apply (output_labels_unique rich_input rich_output).
  vm_compute. reflexivity.
Defined.

Lemma section_le_adjacent_ordered (a b : IdentifiedSection) :
  section_le a b -> adjacent_ordered a b.
Proof.
  unfold section_le, adjacent_ordered.
  intros [H|[H [H'|[H' H'']]]]; [left; lia | right; left; lia | right; right; auto].
Qed.

(** The returned list is sorted by priority descending, then page
    ascending, then section type ascending: every record stands before all
    later ones in that lexicographic order. *)
Lemma output_sorted_lexicographic (text_content : list Item.t)
    (sections : list IdentifiedSection) :
  analyze_mortgage_sections text_content = Ok sections ->
  StronglySorted section_le sections.
Proof.
  intros H. now destruct (analyze_with_output _ _ _ H) as [_ [Hs _]].
Qed.

(** C4: in the returned list, for every two adjacent records the first has
    strictly higher priority, or equal priority and a page less than or
    equal to the second's, or equal priority and page and a section type
    less than or equal to the second's. *)
Theorem output_adjacent_ordered (text_content : list Item.t)
    (sections : list IdentifiedSection) :
  analyze_mortgage_sections text_content = Ok sections ->
  Sorted adjacent_ordered sections.
Proof.
  intros H. apply StronglySorted_Sorted.
  pose proof (output_sorted_lexicographic _ _ H) as Hs.
  clear H. induction Hs as [|a l Hs IH Hall]; [constructor|].
  constructor; [assumption|].
  eapply Forall_impl; [|exact Hall]. intros b. apply section_le_adjacent_ordered.
Qed.

Lemma output_adjacent_ordered_witness : Sorted adjacent_ordered rich_output.
Proof.
  apply (output_adjacent_ordered rich_input rich_output).
  vm_compute. reflexivity.
Defined.

Lemma entry_catalog_priority (rules : list Rule.t) L text_content e :
  entry_of rules L text_content None = Some e ->
  exists rule, In rule rules /\ Rule.label rule = section_type e
               /\ Rule.priority rule = priority e.
Proof.
  apply (entry_of_invariant rules
           (fun e => exists rule, In rule rules /\ Rule.label rule = section_type e
                                  /\ Rule.priority rule = priority e)).
  - intros rule item p c Hin _. exists rule. simpl. auto.
  - intros rule item p c e0 _ _ [r Hr]. exists r. exact Hr.
  - intros e0 [=].
Qed.

(** C5: the priority of every returned record is the priority the catalog
    gives to the rule whose label is the record's section type. *)
Theorem output_priority_from_catalog (text_content : list Item.t)
    (sections : list IdentifiedSection) (s : IdentifiedSection) :
  analyze_mortgage_sections text_content = Ok sections ->
  In s sections ->
  (exists rule, In rule section_rules /\ Rule.label rule = section_type s)
  /\ (forall rule, In rule section_rules -> Rule.label rule = section_type s ->
                   priority s = Rule.priority rule).
Proof.
  intros H Hin. destruct (analyze_with_output _ _ _ H) as [_ [_ Hmem]].
  apply Hmem in Hin. apply entry_catalog_priority in Hin.
  destruct Hin as [r [Hr [Hl Hp]]]. split; [eauto|].
  intros rule Hrule Hlabel.
  assert (rule = r) as ->; [|now symmetry].
  apply (NoDup_map_injective_on Rule.label section_rules);
    [exact section_rules_labels_NoDup | assumption | assumption | congruence].
Qed.

Lemma output_priority_from_catalog_witness :
  (exists rule, In rule section_rules /\ Rule.label rule = "Promissory Note")
  /\ (forall rule, In rule section_rules -> Rule.label rule = "Promissory Note" ->
                   10 = Rule.priority rule).
Proof.
  apply (output_priority_from_catalog scenario1 scenario1_output
           (mkSection "Promissory Note" 3 high "PROMISSORY NOTE" 10 "PROMISSORY NOTE")).
  - vm_compute. reflexivity.
  - simpl. left. reflexivity.
Defined.

(** C8: the classifier raises no exception: it returns the empty list on
    the empty input and returns a list on every input. *)
Theorem analyze_mortgage_sections_total :
  analyze_mortgage_sections [] = Ok []
  /\ forall text_content : list Item.t,
       exists sections, analyze_mortgage_sections text_content = Ok sections.
Proof.
  split; [reflexivity|].
  intros text_content. apply analyze_with_total.
Qed.

(** C6: the order of the rules in the catalog does not matter: with any
    permutation of the catalog the classifier returns the same list. *)
Theorem catalog_order_irrelevant (rules : list Rule.t) (text_content : list Item.t) :
  Permutation section_rules rules ->
  analyze_with rules text_content = analyze_mortgage_sections text_content.
Proof.
  intros P. unfold analyze_mortgage_sections. apply analyze_with_ext.
  intros L.
  assert (Hnd : NoDup (map Rule.label rules)).
  { apply (Permutation_NoDup (Permutation_map Rule.label P)).
    exact section_rules_labels_NoDup. }
  destruct (in_dec string_dec L (map Rule.label section_rules)) as [Hin|Hnotin].
  - apply in_map_iff in Hin. destruct Hin as [r [<- Hr]].
    rewrite (entry_of_unique section_rules r) by
      (assumption || exact section_rules_labels_NoDup).
    apply entry_of_unique; [assumption|]. now apply (Permutation_in _ P).
  - rewrite (entry_of_absent section_rules) by assumption.
    apply entry_of_absent. intros Hin. apply Hnotin.
    apply (Permutation_in _ (Permutation_sym (Permutation_map Rule.label P))).
    exact Hin.
Qed.

Lemma catalog_order_irrelevant_witness :
  analyze_with (rev section_rules) scenario1 = analyze_mortgage_sections scenario1.
Proof.
  apply (catalog_order_irrelevant (rev section_rules) scenario1).
  apply Permutation_rev.
Defined.

Lemma Confidence_eqb_eq (a b : Confidence) : Confidence_eqb a b = true <-> a = b.
Proof. destruct a, b; simpl; split; congruence. Qed.

Lemma better_match_outranks c p e : better_match c p e = true <-> outranks c p e.
Proof.
  unfold better_match, outranks.
  rewrite orb_true_iff, andb_true_iff, Confidence_eqb_eq, Z.gtb_gt, Z.geb_ge.
  reflexivity.
Qed.

(** C2: when the label of the matching rule already has an entry, the
    entry is replaced exactly when the new confidence outranks the
    recorded one, or the two are equal and the rule's priority is at least
    the recorded priority; so on equal confidence and equal priority the
    new match sets the page, the snippet and the matched pattern. *)
Theorem upsert_replaces_iff_outranks
    (found : dict) (item : Item.t) (rule : Rule.t) (page0 : Z)
    (confidence0 : Confidence) (pattern : string) (existing : IdentifiedSection) :
  dict_lookup found (Rule.label rule) = Some existing ->
  let replaced :=
    dict_setitem found (Rule.label rule)
      {| section_type := section_type existing;
         page := page0;
         confidence := confidence0;
         text_snippet := PyStr.slice_to 100 (Item.text item);
         priority := priority existing;
         pattern_matched := pattern |} in
  (outranks confidence0 (Rule.priority rule) existing ->
   keep_best found item rule page0 confidence0 pattern = Ok replaced)
  /\ (~ outranks confidence0 (Rule.priority rule) existing ->
      keep_best found item rule page0 confidence0 pattern = Ok found)
  /\ (confidence0 = confidence existing ->
      Rule.priority rule = priority existing ->
      keep_best found item rule page0 confidence0 pattern = Ok replaced
      /\ dict_lookup replaced (Rule.label rule)
         = Some {| section_type := section_type existing;
                   page := page0;
                   confidence := confidence0;
                   text_snippet := PyStr.slice_to 100 (Item.text item);
                   priority := priority existing;
                   pattern_matched := pattern |}).
Proof.
  intros Hl replaced.
  rewrite (keep_best_present _ _ _ _ _ _ _ Hl).
  fold (update_section existing page0 confidence0
          (PyStr.slice_to 100 (Item.text item)) pattern) in *.
  split; [|split].
  - intros Ho. apply better_match_outranks in Ho. now rewrite Ho.
  - intros Hn. destruct (better_match confidence0 (Rule.priority rule) existing) eqn:Hb;
      [|reflexivity].
    exfalso. apply Hn. now apply better_match_outranks.
  - intros Hc Hp.
    assert (Hb : better_match confidence0 (Rule.priority rule) existing = true).
    { apply better_match_outranks. right. split; [assumption | lia]. }
    rewrite Hb. split; [reflexivity|].
    unfold replaced. rewrite dict_lookup_setitem, String.eqb_refl. reflexivity.
Qed.

Lemma upsert_replaces_iff_outranks_witness :
  keep_best [("Affidavit", affidavit_page2)] (Item.mk "SWORN STATEMENT" 7 "OCR")
    affidavit_rule 7 high "SWORN STATEMENT"
  = Ok [("Affidavit",
         mkSection "Affidavit" 7 high "SWORN STATEMENT" 5 "SWORN STATEMENT")]
  /\ dict_lookup
       [("Affidavit",
         mkSection "Affidavit" 7 high "SWORN STATEMENT" 5 "SWORN STATEMENT")]
       "Affidavit"
     = Some (mkSection "Affidavit" 7 high "SWORN STATEMENT" 5 "SWORN STATEMENT").
Proof.
  apply (proj2 (proj2 (upsert_replaces_iff_outranks
                         [("Affidavit", affidavit_page2)]
                         (Item.mk "SWORN STATEMENT" 7 "OCR")
                         affidavit_rule 7 high "SWORN STATEMENT" affidavit_page2
                         eq_refl))); reflexivity.
Defined.

(** Upper-casing keeps the words of a text apart as they were. *)

Lemma is_space_to_upper (c : ascii) : PyStr.is_space (PyStr.to_upper c) = PyStr.is_space c.
Proof. destruct c as [[] [] [] [] [] [] [] []]; reflexivity. Qed.

Lemma append_char_nonempty (s : string) (c : ascii) :
  String.append s (String c EmptyString) <> EmptyString.
Proof. destruct s; discriminate. Qed.

Lemma split_from_upper_length (s : string) : forall cur cur',
  (cur = EmptyString <-> cur' = EmptyString) ->
  List.length (PyStr.split_from cur' (PyStr.upper s))
  = List.length (PyStr.split_from cur s).
Proof.
  induction s as [|c s IH]; intros cur cur' Hiff; simpl.
  - destruct cur, cur'; try reflexivity; exfalso;
      destruct Hiff as [H1 H2]; (now discriminate H1) || (now discriminate H2).
  - rewrite is_space_to_upper. destruct (PyStr.is_space c).
    + destruct cur, cur'; simpl.
      * now apply IH.
      * exfalso. destruct Hiff as [H1 _]. now discriminate H1.
      * exfalso. destruct Hiff as [_ H2]. now discriminate H2.
      * f_equal. now apply IH.
    + apply IH. split; intros H; exfalso; revert H; apply append_char_nonempty.
Qed.

Lemma split_upper_length (s : string) :
  List.length (PyStr.split (PyStr.upper s)) = List.length (PyStr.split s).
Proof. apply split_from_upper_length. reflexivity. Qed.

Lemma determine_confidence_tiers patterns pattern text :
  determine_confidence patterns pattern text = high
  \/ determine_confidence patterns pattern text = medium.
Proof.
  unfold determine_confidence.
  destruct (String.eqb _ _); auto.
  destruct (_ && _); auto.
  destruct (_ <? _)%nat; auto.
Qed.

Lemma entry_confidence_not_low (rules : list Rule.t) L text_content e :
  entry_of rules L text_content None = Some e -> confidence e <> low.
Proof.
  apply (entry_of_invariant rules (fun e => confidence e <> low)).
  - intros rule item p c _ Hm. simpl. unfold rule_match in Hm.
    destruct (first_match _ _) as [q|]; [|discriminate]. injection Hm as _ <-.
    destruct (determine_confidence_tiers (Rule.patterns rule) q
                (PyStr.upper (Item.text item))) as [-> | ->]; discriminate.
  - intros rule item p c e0 _ Hm _. simpl. unfold rule_match in Hm.
    destruct (first_match _ _) as [q|]; [|discriminate]. injection Hm as _ <-.
    destruct (determine_confidence_tiers (Rule.patterns rule) q
                (PyStr.upper (Item.text item))) as [-> | ->]; discriminate.
  - intros e0 [=].
Qed.

(** C3: for a pattern found in the upper-cased text of an item, the
    confidence is high exactly when the trimmed upper-cased text is the
    pattern, or the text has at most 10 whitespace-separated words, or more
    than one pattern of the rule occurs in the upper-cased text; it is
    medium otherwise; and no returned record has confidence low. *)
Theorem confidence_high_iff :
  (forall (patterns : list string) (pattern : string) (item : Item.t),
      let text := PyStr.upper (Item.text item) in
      PyStr.contains pattern text = true ->
      (determine_confidence patterns pattern text = high
       <-> (PyStr.strip text = pattern
            \/ (List.length (PyStr.split (Item.text item)) <= 10)%nat
            \/ (1 < List.length (filter (fun p => PyStr.contains p text) patterns))%nat))
      /\ (determine_confidence patterns pattern text <> high ->
          determine_confidence patterns pattern text = medium))
  /\ (forall (text_content : list Item.t) (sections : list IdentifiedSection)
             (s : IdentifiedSection),
         analyze_mortgage_sections text_content = Ok sections ->
         In s sections -> confidence s <> low).
Proof.
  split.
  - intros patterns pattern item text Hc. split.
    + unfold determine_confidence. rewrite Hc. simpl.
      rewrite <- (split_upper_length (Item.text item)). fold text.
      destruct (String.eqb_spec (PyStr.strip text) pattern) as [Heq|Hne].
      * split; auto.
      * destruct (Nat.leb_spec (List.length (PyStr.split text)) 10) as [Hw|Hw].
        -- split; auto.
        -- destruct (Nat.ltb_spec 1
                       (List.length (filter (fun p => PyStr.contains p text) patterns)))
             as [Hn|Hn].
           ++ split; auto.
           ++ split; [discriminate|]. intros [H|[H|H]]; [congruence | lia | lia].
    + destruct (determine_confidence_tiers patterns pattern text); congruence.
  - intros text_content sections s H Hin.
    destruct (analyze_with_output _ _ _ H) as [_ [_ Hmem]].
    apply Hmem in Hin. now apply entry_confidence_not_low in Hin.
Qed.

Lemma confidence_high_iff_witness :
  (determine_confidence ["PROMISSORY NOTE"; "NOTE"] "PROMISSORY NOTE"
     (PyStr.upper "Promissory Note") = high
   <-> (PyStr.strip (PyStr.upper "Promissory Note") = "PROMISSORY NOTE"
        \/ (List.length (PyStr.split "Promissory Note") <= 10)%nat
        \/ (1 < List.length
                  (filter (fun p => PyStr.contains p (PyStr.upper "Promissory Note"))
                     ["PROMISSORY NOTE"; "NOTE"]))%nat))
  /\ confidence
       (mkSection "Promissory Note" 3 high "PROMISSORY NOTE" 10 "PROMISSORY NOTE")
     <> low.
Proof.
  split.
  - exact (proj1 (proj1 confidence_high_iff ["PROMISSORY NOTE"; "NOTE"]
                    "PROMISSORY NOTE" (Item.mk "Promissory Note" 3 "primary")
                    eq_refl)).
  - apply (proj2 confidence_high_iff scenario1 scenario1_output).
    + vm_compute. reflexivity.
    + left. reflexivity.
Defined.

(** An entry, once present, stays and never loses confidence. *)

Lemma upsert_monotone rule item e :
  exists e', upsert rule item (Some e) = Some e'
             /\ section_type e' = section_type e
             /\ confidence_rank (confidence e) <= confidence_rank (confidence e').
Proof.
  unfold upsert. destruct (rule_match rule item) as [[p c]|].
  - destruct (better_match c (Rule.priority rule) e) eqn:Hb.
    + eexists. split; [reflexivity|]. simpl. split; [reflexivity|].
      apply better_match_outranks in Hb. destruct Hb as [Hb|[-> _]]; lia.
    + exists e. split; [reflexivity|]. split; [reflexivity | lia].
  - exists e. split; [reflexivity|]. split; [reflexivity | lia].
Qed.

Lemma upsert_all_monotone item L : forall rules e,
  exists e', upsert_all rules item L (Some e) = Some e'
             /\ section_type e' = section_type e
             /\ confidence_rank (confidence e) <= confidence_rank (confidence e').
Proof.
  induction rules as [|r rs IH]; intros e; simpl.
  - exists e. split; [reflexivity|]. split; [reflexivity | lia].
  - destruct (String.eqb L (Rule.label r)); [|apply IH].
    destruct (upsert_monotone r item e) as [e1 [-> [Hs1 Hr1]]].
    destruct (IH e1) as [e2 [-> [Hs2 Hr2]]].
    exists e2. split; [reflexivity|]. split; [congruence | lia].
Qed.

Lemma entry_of_app rules L items1 items2 cur :
  entry_of rules L (items1 ++ items2) cur
  = entry_of rules L items2 (entry_of rules L items1 cur).
Proof. unfold entry_of. apply fold_left_app. Qed.

Lemma entry_of_snoc rules L items item cur :
  entry_of rules L (items ++ [item]) cur
  = upsert_all rules item L (entry_of rules L items cur).
Proof. rewrite entry_of_app. reflexivity. Qed.

Lemma entry_section_type (rules : list Rule.t) L text_content e :
  entry_of rules L text_content None = Some e -> section_type e = L.
Proof.
  intros H.
  destruct (in_dec string_dec L (map Rule.label rules)) as [Hin|Hnotin].
  - destruct (scan_items_spec rules text_content [] dict_wf_nil)
      as [found [_ [[_ Hst] Hl]]].
    apply Hst. apply dict_lookup_In. rewrite Hl. exact H.
  - rewrite entry_of_absent in H by assumption. discriminate.
Qed.

(** C10: appending an item never removes a label from the result and never
    lowers its confidence. *)
Theorem append_keeps_label_and_confidence
    (text_content : list Item.t) (item : Item.t)
    (sections : list IdentifiedSection) (s : IdentifiedSection) :
  analyze_mortgage_sections text_content = Ok sections ->
  In s sections ->
  exists sections' s',
    analyze_mortgage_sections (text_content ++ [item]) = Ok sections'
    /\ In s' sections'
    /\ section_type s' = section_type s
    /\ confidence_rank (confidence s) <= confidence_rank (confidence s').
Proof.
  intros H Hin.
  destruct (analyze_with_output _ _ _ H) as [_ [_ Hmem]].
  apply Hmem in Hin.
  destruct (analyze_with_total section_rules (text_content ++ [item])) as [out' H'].
  destruct (analyze_with_output _ _ _ H') as [_ [_ Hmem']].
  destruct (upsert_all_monotone item (section_type s) section_rules s)
    as [s' [Hs' [Hst Hr]]].
  exists out', s'. split; [exact H'|]. split; [|split; assumption].
  apply Hmem'. rewrite Hst, entry_of_snoc, Hin. exact Hs'.
Qed.

Lemma append_keeps_label_and_confidence_witness :
  exists sections' s',
    analyze_mortgage_sections (scenario1 ++ [Item.mk "see the note" 4 "primary"])
    = Ok sections'
    /\ In s' sections'
    /\ section_type s' = "Promissory Note"
    /\ confidence_rank high <= confidence_rank (confidence s').
Proof.
  apply (append_keeps_label_and_confidence scenario1
           (Item.mk "see the note" 4 "primary") scenario1_output
           (mkSection "Promissory Note" 3 high "PROMISSORY NOTE" 10 "PROMISSORY NOTE")).
  - vm_compute. reflexivity.
  - left. reflexivity.
Defined.

Lemma entry_priority_of_rule (rule : Rule.t) (text_content : list Item.t)
    (e : IdentifiedSection) :
  In rule section_rules ->
  entry_of section_rules (Rule.label rule) text_content None = Some e ->
  priority e = Rule.priority rule.
Proof.
  intros Hrule He.
  destruct (entry_catalog_priority _ _ _ _ He) as [r [Hr [Hl Hp]]].
  assert (r = rule) as <-; [|now symmetry].
  apply (NoDup_map_injective_on Rule.label section_rules);
    [exact section_rules_labels_NoDup | assumption | assumption |].
  rewrite Hl. now apply (entry_section_type section_rules _ text_content).
Qed.

(** The last match wins on whole runs: when the appended item matches a
    rule whose label is recorded with the same confidence, the returned
    record of that label takes its page, snippet and matched pattern from
    the appended item. *)
Lemma last_equal_match_wins
    (text_content : list Item.t) (item : Item.t) (rule : Rule.t)
    (p : string) (c : Confidence)
    (sections : list IdentifiedSection) (existing : IdentifiedSection) :
  In rule section_rules ->
  rule_match rule item = Some (p, c) ->
  analyze_mortgage_sections text_content = Ok sections ->
  In existing sections ->
  section_type existing = Rule.label rule ->
  confidence existing = c ->
  exists sections',
    analyze_mortgage_sections (text_content ++ [item]) = Ok sections'
    /\ In {| section_type := Rule.label rule;
             page := Item.page item;
             confidence := c;
             text_snippet := PyStr.slice_to 100 (Item.text item);
             priority := Rule.priority rule;
             pattern_matched := p |} sections'.
Proof.
  intros Hrule Hm H Hin Hst Hc.
  destruct (analyze_with_output _ _ _ H) as [_ [_ Hmem]].
  apply Hmem in Hin. rewrite Hst in Hin.
  pose proof (entry_priority_of_rule rule text_content existing Hrule Hin) as Hprio.
  destruct (analyze_with_total section_rules (text_content ++ [item])) as [out' H'].
  destruct (analyze_with_output _ _ _ H') as [_ [_ Hmem']].
  exists out'. split; [exact H'|].
  apply Hmem'. cbn [section_type]. rewrite entry_of_snoc, Hin.
  rewrite upsert_all_unique by (exact section_rules_labels_NoDup || assumption).
  unfold upsert. rewrite Hm.
  assert (Hb : better_match c (Rule.priority rule) existing = true).
  { apply better_match_outranks. right. split; [congruence | lia]. }
  rewrite Hb. unfold update_section. rewrite Hst, Hprio. reflexivity.
Qed.

(** ** Reordering the items *)

Lemma confidence_rank_pos (c : Confidence) : 0 < confidence_rank c.
Proof. destruct c; simpl; lia. Qed.

Lemma confidence_rank_inj (a b : Confidence) :
  confidence_rank a = confidence_rank b -> a = b.
Proof. destruct a, b; simpl; intros H; (reflexivity || lia). Qed.

Lemma best_snoc rule items item cur :
  best rule (items ++ [item]) cur = upsert rule item (best rule items cur).
Proof. unfold best. rewrite fold_left_app. reflexivity. Qed.

Lemma upsert_rank rule item cur :
  entry_rank (upsert rule item cur) = Z.max (entry_rank cur) (match_rank rule item).
Proof.
  unfold upsert, match_rank. destruct (rule_match rule item) as [[p c]|].
  - destruct cur as [e|]; simpl.
    + destruct (better_match c (Rule.priority rule) e) eqn:Hb; simpl.
      * apply better_match_outranks in Hb. destruct Hb as [Hb|[-> _]]; lia.
      * destruct (Z.max_spec (confidence_rank (confidence e)) (confidence_rank c))
          as [[Hlt Hmax]|[Hle Hmax]]; [|lia].
        exfalso. assert (better_match c (Rule.priority rule) e = true); [|congruence].
        apply better_match_outranks. left. lia.
    + pose proof (confidence_rank_pos c). lia.
  - destruct cur as [e|]; simpl; [pose proof (confidence_rank_pos (confidence e))|]; lia.
Qed.

Lemma best_rank rule : forall items cur,
  entry_rank (best rule items cur) = Z.max (entry_rank cur) (max_rank rule items).
Proof.
  induction items as [|item rest IH]; intros cur; simpl.
  - destruct cur as [e|]; simpl; [pose proof (confidence_rank_pos (confidence e))|]; lia.
  - rewrite IH, upsert_rank. lia.
Qed.

Lemma match_rank_nonneg rule item : 0 <= match_rank rule item.
Proof.
  unfold match_rank. destruct (rule_match rule item) as [[p c]|]; [|lia].
  pose proof (confidence_rank_pos c). lia.
Qed.

Lemma max_rank_perm rule (l l' : list Item.t) :
  Permutation l l' -> max_rank rule l = max_rank rule l'.
Proof.
  induction 1; simpl; lia.
Qed.

Lemma max_rank_bound rule (l : list Item.t) (i : Item.t) :
  In i l -> match_rank rule i <= max_rank rule l.
Proof.
  induction l as [|x l IH]; simpl; [intros []|].
  intros [->|Hin]; [lia|]. specialize (IH Hin). lia.
Qed.

(** The entry of a rule carries the rule's label and priority. *)
Lemma best_label_priority rule : forall items cur e,
  (forall e0, cur = Some e0 ->
              section_type e0 = Rule.label rule /\ priority e0 = Rule.priority rule) ->
  best rule items cur = Some e ->
  section_type e = Rule.label rule /\ priority e = Rule.priority rule.
Proof.
  induction items as [|item rest IH]; intros cur e Hcur; simpl.
  - apply Hcur.
  - apply IH. intros e0. unfold upsert.
    destruct (rule_match rule item) as [[p c]|]; [|apply Hcur].
    destruct cur as [e1|].
    + destruct (better_match c (Rule.priority rule) e1); intros [= <-].
      * simpl. now apply Hcur.
      * now apply Hcur.
    + intros [= <-]. simpl. auto.
Qed.

Lemma StronglySorted_snoc_inv {A : Type} (R : A -> A -> Prop) (l : list A) (x : A) :
  StronglySorted R (l ++ [x]) -> StronglySorted R l /\ Forall (fun y => R y x) l.
Proof.
  induction l as [|a l IH]; simpl; intros H.
  - split; constructor.
  - inversion H as [|? ? Hs Hall]; subst. destruct (IH Hs) as [Hl Hx].
    apply Forall_app in Hall. destruct Hall as [Hall Hax].
    split; constructor; try assumption. now inversion Hax.
Qed.

Lemma best_top_page rule (items : list Item.t) : forall e,
  StronglySorted Z.le (map Item.page items) ->
  best rule items None = Some e ->
  top_page rule items e.
Proof.
  induction items as [|x items IH] using rev_ind; intros e Hs; [discriminate|].
  rewrite map_app in Hs. simpl in Hs.
  apply StronglySorted_snoc_inv in Hs. destruct Hs as [Hs Hle].
  rewrite Forall_forall in Hle.
  assert (Hpages : forall i, In i items -> Item.page i <= Item.page x).
  { intros i Hi. apply Hle. now apply in_map. }
  assert (Hlast : forall e',
             page e' = Item.page x ->
             match_rank rule x = confidence_rank (confidence e') ->
             top_page rule (items ++ [x]) e').
  { intros e' Hp Hr. split.
    - exists x. split; [apply in_or_app; right; now left|]. auto.
    - intros i Hi _. rewrite Hp. apply in_app_or in Hi.
      destruct Hi as [Hi|[<-|[]]]; [now apply Hpages | lia]. }
  assert (Hkeep : forall e',
             top_page rule items e' ->
             match_rank rule x <> confidence_rank (confidence e') ->
             top_page rule (items ++ [x]) e').
  { intros e' [[i [Hi [Hr Hp]]] Hmax] Hx. split.
    - exists i. split; [apply in_or_app; now left|]. auto.
    - intros j Hj Hrj. apply in_app_or in Hj.
      destruct Hj as [Hj|[<-|[]]]; [now apply Hmax | congruence]. }
  rewrite best_snoc. unfold upsert.
  pose proof (best_label_priority rule items None) as Hinv.
  unfold match_rank in Hlast, Hkeep.
  destruct (rule_match rule x) as [[p c]|].
  - destruct (best rule items None) as [e0|] eqn:Hb.
    + destruct (better_match c (Rule.priority rule) e0) eqn:Hbm; intros [= <-].
      * apply Hlast; reflexivity.
      * apply Hkeep; [now apply IH|]. intros Hr.
        apply confidence_rank_inj in Hr.
        assert (better_match c (Rule.priority rule) e0 = true); [|congruence].
        apply better_match_outranks. right. split; [assumption|].
        destruct (Hinv e0 ltac:(intros ? [=]) eq_refl) as [_ ->]. lia.
    + intros [= <-]. apply Hlast; reflexivity.
  - intros He. apply Hkeep; [now apply IH|].
    pose proof (confidence_rank_pos (confidence e)). lia.
Qed.

Lemma max_rank_nonneg rule (l : list Item.t) : 0 <= max_rank rule l.
Proof.
  induction l as [|x l IH]; simpl; [lia|].
  pose proof (match_rank_nonneg rule x). lia.
Qed.

Lemma output_entry_best (text_content : list Item.t)
    (sections : list IdentifiedSection) (s : IdentifiedSection) :
  analyze_mortgage_sections text_content = Ok sections ->
  In s sections ->
  exists rule, In rule section_rules /\ best rule text_content None = Some s.
Proof.
  intros H Hin. destruct (analyze_with_output _ _ _ H) as [_ [_ Hmem]].
  apply Hmem in Hin.
  destruct (entry_catalog_priority _ _ _ _ Hin) as [rule [Hrule [Hl _]]].
  exists rule. split; [assumption|].
  rewrite <- Hl in Hin.
  now rewrite entry_of_unique in Hin by (exact section_rules_labels_NoDup || assumption).
Qed.

Lemma best_in_output (text_content : list Item.t)
    (sections : list IdentifiedSection) (rule : Rule.t) (s : IdentifiedSection) :
  analyze_mortgage_sections text_content = Ok sections ->
  In rule section_rules ->
  best rule text_content None = Some s ->
  In s sections.
Proof.
  intros H Hrule Hb. destruct (analyze_with_output _ _ _ H) as [_ [_ Hmem]].
  apply Hmem.
  destruct (best_label_priority rule text_content None s ltac:(intros ? [=]) Hb)
    as [-> _].
  now rewrite entry_of_unique by (exact section_rules_labels_NoDup || assumption).
Qed.

(** One direction of the comparison of two runs on reordered items. *)
Lemma reorder_entry (l l' : list Item.t) (out out' : list IdentifiedSection)
    (s : IdentifiedSection) :
  Permutation l l' ->
  analyze_mortgage_sections l = Ok out ->
  analyze_mortgage_sections l' = Ok out' ->
  In s out ->
  exists s', In s' out' /\ tier s' = tier s
             /\ (StronglySorted Z.le (map Item.page l) ->
                 map Item.page l = map Item.page l' -> page s' = page s).
Proof.
  intros P H H' Hin.
  destruct (output_entry_best _ _ _ H Hin) as [rule [Hrule Hb]].
  pose proof (best_rank rule l None) as Hr. rewrite Hb in Hr. simpl in Hr.
  pose proof (best_rank rule l' None) as Hr'. simpl in Hr'.
  rewrite <- (max_rank_perm rule l l' P) in Hr'.
  pose proof (max_rank_nonneg rule l) as Hnn.
  pose proof (confidence_rank_pos (confidence s)) as Hpos.
  destruct (best rule l' None) as [s'|] eqn:Hb'; simpl in Hr'; [|lia].
  assert (Hrank : confidence_rank (confidence s') = confidence_rank (confidence s))
    by lia.
  destruct (best_label_priority rule l None s ltac:(intros ? [=]) Hb) as [Hl Hp].
  destruct (best_label_priority rule l' None s' ltac:(intros ? [=]) Hb') as [Hl' Hp'].
  exists s'. split; [now apply (best_in_output l' out' rule)|]. split.
  - unfold tier. rewrite Hl, Hl', Hp, Hp'.
    now rewrite (confidence_rank_inj _ _ Hrank).
  - intros Hs Hpages.
    assert (Hs' : StronglySorted Z.le (map Item.page l')) by now rewrite <- Hpages.
    destruct (best_top_page rule l s Hs Hb) as [[i [Hi [Hri Hpi]]] Hmax].
    destruct (best_top_page rule l' s' Hs' Hb') as [[i' [Hi' [Hri' Hpi']]] Hmax'].
    assert (page s <= page s').
    { rewrite <- Hpi. apply Hmax'; [now apply (Permutation_in _ P) | congruence]. }
    assert (page s' <= page s).
    { rewrite <- Hpi'. apply Hmax;
        [now apply (Permutation_in _ (Permutation_sym P)) | congruence]. }
    lia.
Qed.

Lemma summaries_sorted (l : list IdentifiedSection) :
  StronglySorted section_le l -> StronglySorted summary_le (map summary l).
Proof. intros H. apply StronglySorted_map. exact H. Qed.

Lemma summaries_NoDup (l : list IdentifiedSection) :
  NoDup (map section_type l) ->
  NoDup (map (fun t : string * Z * Confidence * Z => fst (fst (fst t))) (map summary l)).
Proof. now rewrite map_map. Qed.

Lemma summaries_unique (l1 l2 : list IdentifiedSection) :
  NoDup (map section_type l1) -> NoDup (map section_type l2) ->
  StronglySorted section_le l1 -> StronglySorted section_le l2 ->
  (forall t, In t (map summary l1) <-> In t (map summary l2)) ->
  map summary l1 = map summary l2.
Proof.
  intros N1 N2 S1 S2 Hin.
  apply summaries_NoDup in N1, N2.
  apply (StronglySorted_perm_unique summary_le).
  - now apply summaries_sorted.
  - now apply summaries_sorted.
  - apply NoDup_Permutation; [| |assumption].
    + now apply NoDup_map_inv in N1.
    + now apply NoDup_map_inv in N2.
  - intros a b Ha Hb Hab Hba.
    apply (NoDup_map_injective_on _ _ _ _ N1 Ha Hb).
    destruct a as [[[la pa] ca] ra], b as [[[lb pb] cb] rb]. simpl in *.
    destruct Hab as [H1|[H1 [H2|[H2 H3]]]], Hba as [G1|[G1 [G2|[G2 G3]]]]; try lia.
    now apply String.leb_antisym.
Qed.

Lemma same_page_a_run : analyze_mortgage_sections same_page_a = Ok same_page_a_output.
Proof. vm_compute. reflexivity. Qed.

Lemma same_page_b_run : analyze_mortgage_sections same_page_b = Ok same_page_b_output.
Proof. vm_compute. reflexivity. Qed.

Lemma same_page_a_b : same_page_reordering same_page_a same_page_b.
Proof. split; [apply perm_swap | reflexivity]. Qed.

(** The tie: two items of page 1 that match the same rule with the same
    confidence, taken in the two possible orders, give results with
    different records, the later item being kept. *)
Lemma same_page_reorder_changes_records :
  same_page_reordering
    [Item.mk "MORTGAGE" 1 "pdfplumber"; Item.mk "DEED OF TRUST" 1 "pdfplumber"]
    [Item.mk "DEED OF TRUST" 1 "pdfplumber"; Item.mk "MORTGAGE" 1 "pdfplumber"]
  /\ exists out out',
       analyze_mortgage_sections
         [Item.mk "MORTGAGE" 1 "pdfplumber"; Item.mk "DEED OF TRUST" 1 "pdfplumber"]
       = Ok out
       /\ analyze_mortgage_sections
            [Item.mk "DEED OF TRUST" 1 "pdfplumber"; Item.mk "MORTGAGE" 1 "pdfplumber"]
          = Ok out'
       /\ ~ (forall s, In s out <-> In s out').
Proof.
  split; [exact same_page_a_b|].
  exists same_page_a_output, same_page_b_output.
  split; [exact same_page_a_run|]. split; [exact same_page_b_run|].
  intros H.
  assert (Hin : In (mkSection "Mortgage" 1 high "DEED OF TRUST" 10 "DEED OF TRUST")
                  same_page_b_output).
  { apply H. left. reflexivity. }
  simpl in Hin. destruct Hin as [Hin|[Hin|[]]]; discriminate Hin.
Qed.

(** A tie between items of different pages in an input that is not
    page-ascending: the recorded page depends on the order as well; the
    two orders keep page 1 at the first and third index. *)
Lemma unsorted_reorder_changes_page :
  same_page_reordering
    [Item.mk "AFFIDAVIT" 1 "OCR"; Item.mk "SWORN STATEMENT" 2 "OCR";
     Item.mk "page one again" 1 "OCR"]
    [Item.mk "page one again" 1 "OCR"; Item.mk "SWORN STATEMENT" 2 "OCR";
     Item.mk "AFFIDAVIT" 1 "OCR"]
  /\ analyze_mortgage_sections
       [Item.mk "AFFIDAVIT" 1 "OCR"; Item.mk "SWORN STATEMENT" 2 "OCR";
        Item.mk "page one again" 1 "OCR"]
     = Ok [mkSection "Affidavit" 2 high "SWORN STATEMENT" 5 "SWORN STATEMENT"]
  /\ analyze_mortgage_sections
       [Item.mk "page one again" 1 "OCR"; Item.mk "SWORN STATEMENT" 2 "OCR";
        Item.mk "AFFIDAVIT" 1 "OCR"]
     = Ok [mkSection "Affidavit" 1 high "AFFIDAVIT" 5 "AFFIDAVIT"].
Proof.
  split; [split|split].
  - change (Permutation
              ([Item.mk "AFFIDAVIT" 1 "OCR"; Item.mk "SWORN STATEMENT" 2 "OCR"]
                 ++ [Item.mk "page one again" 1 "OCR"])
              (rev ([Item.mk "AFFIDAVIT" 1 "OCR"; Item.mk "SWORN STATEMENT" 2 "OCR"]
                      ++ [Item.mk "page one again" 1 "OCR"]))).
    apply Permutation_rev.
  - reflexivity.
  - vm_compute. reflexivity.
  - vm_compute. reflexivity.
Qed.

(** What a tie leaves in place: after a reordering of the items that
    keeps the page at every index, ties or not, the result has records of
    the same section types with the same confidence and priority; if the
    pages of the input are ascending, the records also have the same pages
    and stand in the same order. *)
Theorem same_page_reorder_keeps_summary
    (l l' : list Item.t) (out out' : list IdentifiedSection) :
  same_page_reordering l l' ->
  analyze_mortgage_sections l = Ok out ->
  analyze_mortgage_sections l' = Ok out' ->
  (forall t, In t (map tier out) <-> In t (map tier out'))
  /\ (Sorted Z.le (map Item.page l) -> map summary out = map summary out').
Proof.
  intros [P Hpages] H H'. split.
  - intros t. rewrite !in_map_iff. split; intros [s [<- Hin]].
    + destruct (reorder_entry l l' out out' s P H H' Hin) as [s' [Hin' [Ht _]]].
      eauto.
    + destruct (reorder_entry l' l out' out s (Permutation_sym P) H' H Hin)
        as [s' [Hin' [Ht _]]].
      eauto.
  - intros Hs. apply Sorted_StronglySorted in Hs; [|exact Z.le_trans].
    assert (Hs' : StronglySorted Z.le (map Item.page l')) by now rewrite <- Hpages.
    destruct (analyze_with_output _ _ _ H) as [N [S _]].
    destruct (analyze_with_output _ _ _ H') as [N' [S' _]].
    apply summaries_unique; try assumption.
    assert (Hsum : forall s s', tier s' = tier s -> page s' = page s ->
                                summary s' = summary s).
    { intros s s' Ht Hp. unfold tier in Ht. unfold summary. congruence. }
    intros t. rewrite !in_map_iff. split; intros [s [<- Hin]].
    + destruct (reorder_entry l l' out out' s P H H' Hin) as [s' [Hin' [Ht Hp]]].
      exists s'. split; [|assumption]. apply Hsum; auto.
    + destruct (reorder_entry l' l out' out s (Permutation_sym P) H' H Hin)
        as [s' [Hin' [Ht Hp]]].
      exists s'. split; [|assumption]. apply Hsum; auto.
Qed.

(** ** More on the classifier: where the records come from *)

Lemma first_match_Some (pats : list string) (text p : string) :
  first_match pats text = Some p -> In p pats /\ PyStr.contains p text = true.
Proof.
  unfold first_match. intros H.
  apply (find_some (fun q => PyStr.contains q text)) in H. exact H.
Qed.

Lemma first_match_found (pats : list string) (text p : string) :
  In p pats -> PyStr.contains p text = true ->
  exists q, first_match pats text = Some q.
Proof.
  intros Hin Hc. unfold first_match.
  destruct (find (fun p0 => PyStr.contains p0 text) pats) as [q|] eqn:Hf; [eauto|].
  pose proof (find_none _ _ Hf p Hin) as Hn. simpl in Hn. congruence.
Qed.

Lemma rule_match_Some rule item p c :
  rule_match rule item = Some (p, c) ->
  first_match (Rule.patterns rule) (PyStr.upper (Item.text item)) = Some p
  /\ c = determine_confidence (Rule.patterns rule) p (PyStr.upper (Item.text item)).
Proof.
  unfold rule_match.
  destruct (first_match _ _) as [q|]; [|discriminate].
  intros [= <- <-]. auto.
Qed.

Lemma best_provenance rule (items : list Item.t) : forall e,
  best rule items None = Some e ->
  exists item p c,
    In item items /\ rule_match rule item = Some (p, c)
    /\ e = new_section rule item p c.
Proof.
  induction items as [|x items IH] using rev_ind; intros e; [discriminate|].
  rewrite best_snoc. unfold upsert.
  assert (Hold : forall e0, best rule items None = Some e0 ->
                   exists item p c,
                     In item (items ++ [x]) /\ rule_match rule item = Some (p, c)
                     /\ e0 = new_section rule item p c).
  { intros e0 He0. destruct (IH e0 He0) as [item [p [c [Hin H]]]].
    exists item, p, c. split; [apply in_or_app; now left | exact H]. }
  destruct (rule_match rule x) as [[p c]|] eqn:Hm; [|apply Hold].
  assert (Hx : In x (items ++ [x])) by (apply in_or_app; right; now left).
  destruct (best rule items None) as [e0|] eqn:Hb.
  - destruct (better_match c (Rule.priority rule) e0); intros [= <-].
    + exists x, p, c. split; [assumption|]. split; [assumption|].
      destruct (best_label_priority rule items None e0 ltac:(intros ? [=]) Hb)
        as [Hl Hp].
      unfold update_section, new_section. now rewrite Hl, Hp.
    + now apply Hold.
  - intros [= <-]. exists x, p, c. auto.
Qed.

Lemma substring_length_le (n : nat) : forall s : string,
  (String.length (substring 0 n s) <= n)%nat.
Proof.
  induction n as [|n IH]; intros [|c s]; simpl; try lia.
  specialize (IH s). lia.
Qed.

Lemma catalog_rule_unique (rule rule' : Rule.t) :
  In rule section_rules -> In rule' section_rules ->
  Rule.label rule = Rule.label rule' -> rule = rule'.
Proof.
  intros H H' Hl.
  now apply (NoDup_map_injective_on Rule.label section_rules _ _
               section_rules_labels_NoDup H H').
Qed.

(** Two inputs that leave every rule of the catalog with the same entry
    are classified alike. *)
Lemma analyze_best_ext (l1 l2 : list Item.t) :
  (forall rule, In rule section_rules -> best rule l1 None = best rule l2 None) ->
  analyze_mortgage_sections l1 = analyze_mortgage_sections l2.
Proof.
  intros Hext. apply analyze_with_ext. intros L.
  destruct (in_dec string_dec L (map Rule.label section_rules)) as [Hin|Hnotin].
  - apply in_map_iff in Hin. destruct Hin as [r [<- Hr]].
    rewrite !entry_of_unique by (exact section_rules_labels_NoDup || assumption).
    now apply Hext.
  - now rewrite !entry_of_absent by assumption.
Qed.

(** X1: every returned record was produced by one item of the input and
    one rule of the catalog: it carries the rule's label and priority, the
    item's page and the first 100 characters of its text; its matched
    pattern is the first pattern of the rule that occurs in the item's
    upper-cased text, and its confidence is the one computed for that
    match. *)
Theorem output_record_provenance (text_content : list Item.t)
    (sections : list IdentifiedSection) (s : IdentifiedSection) :
  analyze_mortgage_sections text_content = Ok sections ->
  In s sections ->
  exists rule item,
    In rule section_rules /\ In item text_content
    /\ section_type s = Rule.label rule
    /\ priority s = Rule.priority rule
    /\ page s = Item.page item
    /\ text_snippet s = PyStr.slice_to 100 (Item.text item)
    /\ first_match (Rule.patterns rule) (PyStr.upper (Item.text item))
       = Some (pattern_matched s)
    /\ In (pattern_matched s) (Rule.patterns rule)
    /\ PyStr.contains (pattern_matched s) (PyStr.upper (Item.text item)) = true
    /\ confidence s
       = determine_confidence (Rule.patterns rule) (pattern_matched s)
           (PyStr.upper (Item.text item)).
Proof.
  intros H Hin.
  destruct (output_entry_best _ _ _ H Hin) as [rule [Hrule Hb]].
  destruct (best_provenance rule text_content s Hb) as [item [p [c [Hi [Hm ->]]]]].
  destruct (rule_match_Some _ _ _ _ Hm) as [Hf ->].
  destruct (first_match_Some _ _ _ Hf) as [Hp Hc].
  exists rule, item. simpl. repeat (split; [assumption || reflexivity|]).
  reflexivity.
Qed.

Lemma output_record_provenance_witness :
  exists rule item,
    In rule section_rules /\ In item scenario1
    /\ "Promissory Note" = Rule.label rule
    /\ 10 = Rule.priority rule
    /\ 3 = Item.page item
    /\ "PROMISSORY NOTE" = PyStr.slice_to 100 (Item.text item)
    /\ first_match (Rule.patterns rule) (PyStr.upper (Item.text item))
       = Some "PROMISSORY NOTE"
    /\ In "PROMISSORY NOTE" (Rule.patterns rule)
    /\ PyStr.contains "PROMISSORY NOTE" (PyStr.upper (Item.text item)) = true
    /\ high
       = determine_confidence (Rule.patterns rule) "PROMISSORY NOTE"
           (PyStr.upper (Item.text item)).
Proof.
  apply (output_record_provenance scenario1 scenario1_output
           (mkSection "Promissory Note" 3 high "PROMISSORY NOTE" 10 "PROMISSORY NOTE")).
  - vm_compute. reflexivity.
  - left. reflexivity.
Defined.

(** X2: a label is in the result exactly when some item of the input
    contains, upper-cased, some pattern of the catalog rule of that label. *)
Theorem label_reported_iff_matched (text_content : list Item.t)
    (sections : list IdentifiedSection) (L : string) :
  analyze_mortgage_sections text_content = Ok sections ->
  ((exists s, In s sections /\ section_type s = L)
   <-> (exists rule item pattern,
           In rule section_rules /\ Rule.label rule = L
           /\ In item text_content
           /\ In pattern (Rule.patterns rule)
           /\ PyStr.contains pattern (PyStr.upper (Item.text item)) = true)).
Proof.
  intros H. split.
  - intros [s [Hin <-]].
    destruct (output_entry_best _ _ _ H Hin) as [rule [Hrule Hb]].
    destruct (best_provenance rule text_content s Hb) as [item [p [c [Hi [Hm ->]]]]].
    destruct (rule_match_Some _ _ _ _ Hm) as [Hf _].
    destruct (first_match_Some _ _ _ Hf) as [Hp Hc].
    exists rule, item, p. simpl. auto.
  - intros [rule [item [pattern [Hrule [<- [Hi [Hp Hc]]]]]]].
    destruct (first_match_found _ _ _ Hp Hc) as [q Hq].
    pose proof (max_rank_bound rule text_content item Hi) as Hbound.
    unfold match_rank, rule_match in Hbound. rewrite Hq in Hbound.
    pose proof (confidence_rank_pos
                  (determine_confidence (Rule.patterns rule) q
                     (PyStr.upper (Item.text item)))) as Hpos.
    pose proof (best_rank rule text_content None) as Hr. simpl in Hr.
    destruct (best rule text_content None) as [s|] eqn:Hb; simpl in Hr; [|lia].
    exists s. split; [now apply (best_in_output text_content sections rule)|].
    now destruct (best_label_priority rule text_content None s ltac:(intros ? [=]) Hb).
Qed.

Lemma label_reported_iff_matched_witness :
  (exists s, In s scenario1_output /\ section_type s = "Promissory Note")
  <-> (exists rule item pattern,
          In rule section_rules /\ Rule.label rule = "Promissory Note"
          /\ In item scenario1
          /\ In pattern (Rule.patterns rule)
          /\ PyStr.contains pattern (PyStr.upper (Item.text item)) = true).
Proof.
  apply (label_reported_iff_matched scenario1 scenario1_output "Promissory Note").
  vm_compute. reflexivity.
Defined.

(** X3: the confidence of a returned record is the best one any item of
    the input reaches for the rule of its label: no item matches that rule
    with a confidence of higher rank. *)
Theorem output_confidence_is_best (text_content : list Item.t)
    (sections : list IdentifiedSection) (s : IdentifiedSection)
    (rule : Rule.t) (item : Item.t) (pattern : string) :
  analyze_mortgage_sections text_content = Ok sections ->
  In s sections ->
  In rule section_rules -> Rule.label rule = section_type s ->
  In item text_content ->
  first_match (Rule.patterns rule) (PyStr.upper (Item.text item)) = Some pattern ->
  confidence_rank
    (determine_confidence (Rule.patterns rule) pattern (PyStr.upper (Item.text item)))
  <= confidence_rank (confidence s).
Proof.
  intros H Hin Hrule Hl Hi Hf.
  destruct (output_entry_best _ _ _ H Hin) as [rule' [Hrule' Hb]].
  assert (rule' = rule) as ->.
  { apply catalog_rule_unique; try assumption.
    destruct (best_label_priority rule' text_content None s ltac:(intros ? [=]) Hb)
      as [Hl' _].
    congruence. }
  pose proof (best_rank rule text_content None) as Hr. rewrite Hb in Hr. simpl in Hr.
  pose proof (max_rank_bound rule text_content item Hi) as Hbound.
  unfold match_rank, rule_match in Hbound. rewrite Hf in Hbound. lia.
Qed.

Lemma output_confidence_is_best_witness :
  confidence_rank
    (determine_confidence ["PROMISSORY NOTE"; "NOTE"] "PROMISSORY NOTE"
       (PyStr.upper "PROMISSORY NOTE"))
  <= confidence_rank high.
Proof.
  apply (output_confidence_is_best scenario1 scenario1_output
           (mkSection "Promissory Note" 3 high "PROMISSORY NOTE" 10 "PROMISSORY NOTE")
           (Rule.mk ["PROMISSORY NOTE"; "NOTE"] "Promissory Note" 10)
           (Item.mk "PROMISSORY NOTE" 3 "primary") "PROMISSORY NOTE").
  - vm_compute. reflexivity.
  - left. reflexivity.
  - right. left. reflexivity.
  - reflexivity.
  - left. reflexivity.
  - reflexivity.
Defined.

(** X4: the snippet of a returned record has at most 100 characters. *)
Theorem output_snippet_bounded (text_content : list Item.t)
    (sections : list IdentifiedSection) (s : IdentifiedSection) :
  analyze_mortgage_sections text_content = Ok sections ->
  In s sections ->
  (String.length (text_snippet s) <= 100)%nat.
Proof.
  intros H Hin.
  destruct (output_entry_best _ _ _ H Hin) as [rule [Hrule Hb]].
  destruct (best_provenance rule text_content s Hb) as [item [p [c [_ [_ ->]]]]].
  simpl. apply substring_length_le.
Qed.

Lemma output_snippet_bounded_witness :
  (String.length "PROMISSORY NOTE" <= 100)%nat.
Proof.
  apply (output_snippet_bounded scenario1 scenario1_output
           (mkSection "Promissory Note" 3 high "PROMISSORY NOTE" 10 "PROMISSORY NOTE")).
  - vm_compute. reflexivity.
  - left. reflexivity.
Defined.

Lemma existsb_false_find {A : Type} (f : A -> bool) (l : list A) :
  existsb f l = false -> find f l = None.
Proof.
  induction l as [|x l IH]; simpl; [reflexivity|].
  destruct (f x); simpl; [discriminate | exact IH].
Qed.

Lemma rule_match_irrelevant (rule : Rule.t) (item : Item.t) :
  In rule section_rules -> matches_some_rule item = false ->
  rule_match rule item = None.
Proof.
  intros Hrule Hm. unfold rule_match, first_match.
  rewrite existsb_false_find; [reflexivity|].
  unfold matches_some_rule in Hm.
  destruct (existsb _ (Rule.patterns rule)) eqn:He; [|reflexivity].
  assert (existsb
            (fun rule0 => existsb
               (fun p => PyStr.contains p (PyStr.upper (Item.text item)))
               (Rule.patterns rule0)) section_rules = true); [|congruence].
  apply existsb_exists. exists rule. auto.
Qed.

Lemma best_cons rule item items cur :
  best rule (item :: items) cur = best rule items (upsert rule item cur).
Proof. reflexivity. Qed.

Lemma best_filter_relevant (rule : Rule.t) :
  In rule section_rules ->
  forall items cur,
    best rule (filter matches_some_rule items) cur = best rule items cur.
Proof.
  intros Hrule. induction items as [|x items IH]; intros cur; [reflexivity|].
  cbn [filter]. rewrite (best_cons rule x items cur).
  destruct (matches_some_rule x) eqn:Hm.
  - rewrite best_cons. apply IH.
  - rewrite IH. f_equal. unfold upsert.
    now rewrite (rule_match_irrelevant rule x Hrule Hm).
Qed.

(** X5: items that contain no pattern of the catalog have no influence:
    dropping them from the input gives the same result. *)
Theorem unmatched_items_ignored (text_content : list Item.t) :
  analyze_mortgage_sections (filter matches_some_rule text_content)
  = analyze_mortgage_sections text_content.
Proof.
  apply analyze_best_ext. intros rule Hrule. now apply best_filter_relevant.
Qed.

Lemma max_rank_app rule (l1 l2 : list Item.t) :
  max_rank rule (l1 ++ l2) = Z.max (max_rank rule l1) (max_rank rule l2).
Proof.
  induction l1 as [|x l1 IH]; simpl.
  - pose proof (max_rank_nonneg rule l2). lia.
  - rewrite IH. lia.
Qed.

Lemma best_entry_of_rule rule items cur :
  entry_of_rule rule cur -> entry_of_rule rule (best rule items cur).
Proof.
  intros Hcur e He. exact (best_label_priority rule items cur e Hcur He).
Qed.

(** A match whose rank is at least the recorded one takes the entry. *)
Lemma upsert_top rule item p c cur :
  entry_of_rule rule cur ->
  rule_match rule item = Some (p, c) ->
  entry_rank cur <= confidence_rank c ->
  upsert rule item cur = Some (new_section rule item p c).
Proof.
  intros Hcur Hm Hr. unfold upsert. rewrite Hm.
  destruct cur as [e|]; [|reflexivity].
  destruct (Hcur e eq_refl) as [Hl Hp]. simpl in Hr.
  assert (Hb : better_match c (Rule.priority rule) e = true).
  { apply better_match_outranks.
    destruct (Z.eq_dec (confidence_rank c) (confidence_rank (confidence e))) as [Heq|Hne].
    - right. split; [now apply confidence_rank_inj | lia].
    - left. lia. }
  rewrite Hb. unfold update_section, new_section. now rewrite Hl, Hp.
Qed.

Lemma best_saturated rule (l : list Item.t) : forall cur,
  entry_of_rule rule cur ->
  entry_rank cur <= max_rank rule l ->
  0 < max_rank rule l ->
  best rule l cur = best rule l None.
Proof.
  induction l as [|x l IH] using rev_ind; intros cur Hcur Hr Hpos;
    [simpl in Hpos; lia|].
  rewrite max_rank_app in Hr, Hpos. simpl in Hr, Hpos.
  pose proof (match_rank_nonneg rule x) as Hx.
  pose proof (max_rank_nonneg rule l) as Hl.
  rewrite !best_snoc.
  destruct (Z_lt_le_dec (match_rank rule x) (max_rank rule l)) as [Hlt|Hge].
  - rewrite (IH cur); [reflexivity | assumption | lia | lia].
  - unfold match_rank in Hge, Hr, Hpos, Hx.
    destruct (rule_match rule x) as [[p c]|] eqn:Hm; [|lia].
    rewrite (upsert_top rule x p c (best rule l cur));
      [| now apply best_entry_of_rule | assumption
       | rewrite best_rank; lia ].
    rewrite (upsert_top rule x p c (best rule l None));
      [reflexivity | apply best_entry_of_rule; intros ? [=] | assumption
       | rewrite best_rank; simpl; lia ].
Qed.

(** X6: classifying an input followed by a second copy of itself gives the
    result of classifying it once. *)
Theorem duplicated_input_same_result (text_content : list Item.t) :
  analyze_mortgage_sections (text_content ++ text_content)
  = analyze_mortgage_sections text_content.
Proof.
  apply analyze_best_ext. intros rule _.
  unfold best at 1. rewrite fold_left_app.
  fold (best rule text_content None).
  fold (best rule text_content (best rule text_content None)).
  pose proof (best_rank rule text_content None) as Hr. simpl in Hr.
  pose proof (max_rank_nonneg rule text_content) as Hnn.
  destruct (Z.eq_dec (max_rank rule text_content) 0) as [Hz|Hnz].
  - destruct (best rule text_content None) as [e|] eqn:Hb; [|exact Hb].
    simpl in Hr. pose proof (confidence_rank_pos (confidence e)). lia.
  - apply best_saturated; [apply best_entry_of_rule; intros ? [=] | lia | lia].
Qed.

(** X7: the result has at most one record per rule of the catalog, so at
    most 16 records. *)
Theorem output_size_bounded (text_content : list Item.t)
    (sections : list IdentifiedSection) :
  analyze_mortgage_sections text_content = Ok sections ->
  (List.length sections <= List.length section_rules)%nat
  /\ (List.length sections <= 16)%nat.
Proof.
  intros H.
  assert (Hlen : (List.length sections <= List.length section_rules)%nat).
  { destruct (analyze_with_output _ _ _ H) as [Hnd [_ Hmem]].
    rewrite <- (length_map section_type sections),
            <- (length_map Rule.label section_rules).
    apply NoDup_incl_length; [assumption|].
    intros L HL. apply in_map_iff in HL. destruct HL as [s [<- Hs]].
    apply Hmem in Hs. apply entry_catalog_priority in Hs.
    destruct Hs as [r [Hr [Hl _]]]. rewrite <- Hl. now apply in_map. }
  split; [exact Hlen|]. exact Hlen.
Qed.

Lemma output_size_bounded_witness :
  (List.length scenario1_output <= List.length section_rules)%nat
  /\ (List.length scenario1_output <= 16)%nat.
Proof.
  apply (output_size_bounded scenario1 scenario1_output).
  vm_compute. reflexivity.
Defined.

(** ** Reordering without ties *)

(** The item that decides the entry of a rule. *)
Lemma best_winner rule (l : list Item.t) (e : IdentifiedSection) :
  best rule l None = Some e ->
  exists i p c,
    In i l /\ rule_match rule i = Some (p, c)
    /\ e = new_section rule i p c
    /\ match_rank rule i = max_rank rule l
    /\ 0 < match_rank rule i.
Proof.
  intros Hb.
  destruct (best_provenance rule l e Hb) as [i [p [c [Hi [Hm ->]]]]].
  pose proof (best_rank rule l None) as Hr. rewrite Hb in Hr. simpl in Hr.
  pose proof (max_rank_nonneg rule l) as Hnn.
  pose proof (confidence_rank_pos c) as Hpos.
  exists i, p, c. unfold match_rank. rewrite Hm.
  split; [assumption|]. split; [reflexivity|]. split; [reflexivity|]. lia.
Qed.

Lemma best_perm_rank rule (l l' : list Item.t) :
  Permutation l l' ->
  entry_rank (best rule l' None) = entry_rank (best rule l None).
Proof.
  intros P. rewrite !best_rank. now rewrite (max_rank_perm rule l l' P).
Qed.

Lemma best_reorder_page rule (l l' : list Item.t) (e e' : IdentifiedSection) :
  Permutation l l' ->
  map Item.page l = map Item.page l' ->
  StronglySorted Z.le (map Item.page l) ->
  best rule l None = Some e ->
  best rule l' None = Some e' ->
  page e' = page e.
Proof.
  intros P Hpages Hs Hb Hb'.
  pose proof (best_perm_rank rule l l' P) as Hr. rewrite Hb, Hb' in Hr. simpl in Hr.
  assert (Hs' : StronglySorted Z.le (map Item.page l')) by now rewrite <- Hpages.
  destruct (best_top_page rule l e Hs Hb) as [[i [Hi [Hri Hpi]]] Hmax].
  destruct (best_top_page rule l' e' Hs' Hb') as [[i' [Hi' [Hri' Hpi']]] Hmax'].
  assert (page e <= page e').
  { rewrite <- Hpi. apply Hmax'; [now apply (Permutation_in _ P) | congruence]. }
  assert (page e' <= page e).
  { rewrite <- Hpi'. apply Hmax;
      [now apply (Permutation_in _ (Permutation_sym P)) | congruence]. }
  lia.
Qed.

Lemma best_reorder_untied rule (l l' : list Item.t) :
  Permutation l l' ->
  no_tie rule l
  \/ (map Item.page l = map Item.page l'
      /\ StronglySorted Z.le (map Item.page l)
      /\ no_same_page_tie rule l) ->
  best rule l' None = best rule l None.
Proof.
  intros P Huntied.
  pose proof (best_perm_rank rule l l' P) as Hr.
  destruct (best rule l None) as [e|] eqn:Hb;
    destruct (best rule l' None) as [e'|] eqn:Hb'; simpl in Hr;
    try reflexivity;
    try (pose proof (confidence_rank_pos (confidence e)); lia);
    try (pose proof (confidence_rank_pos (confidence e')); lia).
  destruct (best_winner rule l e Hb) as [i [p [c [Hi [Hm [He [Hri Hpos]]]]]]].
  destruct (best_winner rule l' e' Hb') as [i' [p' [c' [Hi' [Hm' [He' [Hri' _]]]]]]].
  apply (Permutation_in _ (Permutation_sym P)) in Hi'.
  rewrite <- (max_rank_perm rule l l' P) in Hri'.
  assert (i = i') as <-.
  { destruct Huntied as [Hno|[Hpages [Hs Hno]]].
    - now apply (Hno i i').
    - apply (Hno i i'); try assumption.
      pose proof (best_reorder_page rule l l' e e' P Hpages Hs Hb Hb') as Hp.
      rewrite He, He' in Hp. simpl in Hp. congruence. }
  rewrite Hm in Hm'. injection Hm' as <- <-. now rewrite He, He'.
Qed.

(** C7: reordering items that share a page does not change the result.
    The specification excepts the case that confidence and priority tie;
    outside it the results are equal, record for record: for every input
    in which no two different items tie for a rule at its best confidence
    and, when the input is page-ascending, already when no two different
    items of one page do. *)
Theorem same_page_reorder_same_result (l l' : list Item.t) :
  same_page_reordering l l' ->
  ((forall rule, In rule section_rules -> no_tie rule l) ->
   analyze_mortgage_sections l' = analyze_mortgage_sections l)
  /\ (Sorted Z.le (map Item.page l) ->
      (forall rule, In rule section_rules -> no_same_page_tie rule l) ->
      analyze_mortgage_sections l' = analyze_mortgage_sections l).
Proof.
  intros [P Hpages]. split.
  - intros Hno. apply analyze_best_ext. intros rule Hrule.
    apply best_reorder_untied; [assumption|]. left. now apply Hno.
  - intros Hs Hno. apply Sorted_StronglySorted in Hs; [|exact Z.le_trans].
    apply analyze_best_ext. intros rule Hrule.
    apply best_reorder_untied; [assumption|]. right. auto.
Qed.

Lemma same_page_reorder_same_result_witness :
  analyze_mortgage_sections untied_b = analyze_mortgage_sections untied_a
  /\ analyze_mortgage_sections cross_page_b = analyze_mortgage_sections cross_page_a.
Proof.
  split.
  - apply (proj1 (same_page_reorder_same_result untied_a untied_b
                    (conj (perm_swap _ _ _) eq_refl))).
    intros rule Hrule i j Hi Hj.
    simpl in Hrule.
    repeat (destruct Hrule as [<-|Hrule]; [|]); try contradiction;
      simpl in Hi, Hj;
      destruct Hi as [<-|[<-|[<-|[]]]]; destruct Hj as [<-|[<-|[<-|[]]]];
      vm_compute; intros H0 H1 H2;
      first [reflexivity | discriminate H0 | discriminate H1 | discriminate H2].
  - apply (proj2 (same_page_reorder_same_result cross_page_a cross_page_b
                    (conj (perm_skip _ (perm_swap _ _ _)) eq_refl))).
    + simpl. repeat constructor; lia.
    + intros rule Hrule i j Hi Hj.
      simpl in Hrule.
      repeat (destruct Hrule as [<-|Hrule]; [|]); try contradiction;
        simpl in Hi, Hj;
        destruct Hi as [<-|[<-|[<-|[]]]]; destruct Hj as [<-|[<-|[<-|[]]]];
        vm_compute; intros Hp H0 H1 H2;
        first [reflexivity | discriminate Hp | discriminate H0
              | discriminate H1 | discriminate H2].
Defined.

(** ** Text extraction *)

Lemma lstrip_head (s : string) (c : ascii) (r : string) :
  PyStr.lstrip s = String c r -> PyStr.is_space c = false.
Proof.
  induction s as [|a s IH]; simpl; [discriminate|].
  destruct (PyStr.is_space a) eqn:Ha; [exact IH|].
  intros [= <- _]. exact Ha.
Qed.

Lemma rstrip_nonspace_head (c : ascii) (r : string) :
  PyStr.is_space c = false ->
  PyStr.rstrip (String c r) = String c (PyStr.rstrip r).
Proof.
  intros Hc. simpl. rewrite Hc. destruct (PyStr.rstrip r); reflexivity.
Qed.

Lemma rstrip_cons (c : ascii) (s : string) :
  PyStr.rstrip (String c s)
  = match PyStr.rstrip s with
    | EmptyString => if PyStr.is_space c then EmptyString else String c EmptyString
    | String a r => String c (String a r)
    end.
Proof. simpl. destruct (PyStr.rstrip s); reflexivity. Qed.

Lemma rstrip_idempotent (s : string) : PyStr.rstrip (PyStr.rstrip s) = PyStr.rstrip s.
Proof.
  induction s as [|c s IH]; [reflexivity|].
  rewrite (rstrip_cons c s).
  destruct (PyStr.rstrip s) as [|a r] eqn:Hr.
  - destruct (PyStr.is_space c) eqn:Hc; [reflexivity|].
    rewrite rstrip_cons. simpl. now rewrite Hc.
  - rewrite rstrip_cons, IH. reflexivity.
Qed.

Lemma strip_idempotent (s : string) : PyStr.strip (PyStr.strip s) = PyStr.strip s.
Proof.
  unfold PyStr.strip.
  destruct (PyStr.lstrip s) as [|c r] eqn:Hl; [reflexivity|].
  pose proof (lstrip_head s c r Hl) as Hc.
  rewrite (rstrip_nonspace_head c r Hc).
  cbn [PyStr.lstrip]. rewrite Hc.
  rewrite <- (rstrip_nonspace_head c r Hc). apply rstrip_idempotent.
Qed.

Lemma percentage_in_range (current total : Z) :
  0 <= current <= total -> percentage_overflows current total = false.
Proof.
  intros H. unfold percentage_overflows. apply Z.ltb_ge.
  assert (Hthr : 1 <= 11529215046068469 * 2 ^ 964) by (vm_compute; discriminate).
  rewrite Z.abs_eq by lia. nia.
Qed.

Lemma update_progress_in_range clock sid current total status w :
  0 <= current <= total ->
  exists w', update_progress clock sid current total status w = Some w'.
Proof.
  intros H. unfold update_progress.
  rewrite (percentage_in_range current total H), andb_false_r. eauto.
Qed.

Lemma report_progress_in_range clock session_id current total status w :
  0 <= current <= total ->
  exists w', report_progress clock session_id current total status w = Some w'.
Proof.
  intros H. unfold report_progress.
  destruct session_id as [sid|]; [|eauto].
  destruct (str_truthy sid); [|eauto].
  now apply update_progress_in_range.
Qed.

Lemma pdfplumber_loop_items clock sid total : forall pages n tc w,
  0 <= n -> n + Z.of_nat (List.length pages) <= total + 1 ->
  fst (pdfplumber_loop clock sid total n pages tc w)
  = tc ++ collect pdfplumber_page_items n pages.
Proof.
  induction pages as [|page rest IH]; intros n tc w Hn Hlen.
  - simpl. now rewrite app_nil_r.
  - cbn [pdfplumber_loop collect]. cbn [List.length] in Hlen.
    destruct (report_progress_in_range clock sid n total "extracting_text" w)
      as [w1 ->]; [lia|].
    destruct page as [t|m]; rewrite IH by lia; [now rewrite app_assoc | reflexivity].
Qed.

Lemma ocr_loop_items clock sid total : forall images n tc w,
  0 <= n -> n + Z.of_nat (List.length images) <= total + 1 ->
  fst (ocr_loop clock sid total n images tc w)
  = tc ++ collect ocr_page_items n images.
Proof.
  induction images as [|image rest IH]; intros n tc w Hn Hlen.
  - simpl. now rewrite app_nil_r.
  - cbn [ocr_loop collect]. cbn [List.length] in Hlen.
    destruct (report_progress_in_range clock sid n total
                (String.append "ocr_page_" (str_of_int n)) w) as [w1 ->]; [lia|].
    destruct image as [t|m]; rewrite IH by lia; [now rewrite app_assoc | reflexivity].
Qed.

Lemma pdfplumber_extraction_items clock P sid w :
  fst (pdfplumber_extraction clock P sid w) = text_layer_items P.
Proof.
  unfold pdfplumber_extraction, text_layer_items.
  destruct (PDFPLUMBER_AVAILABLE P); [|reflexivity].
  destruct (pdf_pages P) as [pages|m]; [|reflexivity].
  destruct (report_progress_in_range clock sid 0 (Z.of_nat (List.length pages))
              "extracting_text" w) as [w0 ->]; [lia|].
  rewrite pdfplumber_loop_items by lia. reflexivity.
Qed.

Lemma extract_items clock P sid w :
  fst (extract_text_from_pdf clock P sid w) = extracted_items P.
Proof.
  unfold extract_text_from_pdf, extracted_items.
  pose proof (pdfplumber_extraction_items clock P sid w) as Ht.
  destruct (pdfplumber_extraction clock P sid w) as [tc w1]. simpl in Ht. subst tc.
  destruct ((List.length (text_layer_items P) <? 10)%nat && OCR_AVAILABLE P);
    [|reflexivity].
  unfold ocr_layer_items.
  destruct (ocr_images P) as [images|m]; [|reflexivity].
  destruct (report_progress_in_range clock sid 0 (Z.of_nat (List.length images))
              "ocr_processing" w1) as [w2 ->]; [lia|].
  pose proof (ocr_loop_items clock sid (Z.of_nat (List.length images)) images 1 []
                w2 ltac:(lia) ltac:(lia)) as Ho.
  destruct (ocr_loop clock sid (Z.of_nat (List.length images)) 1 images [] w2)
    as [oc w3].
  simpl in Ho. subst oc.
  destruct (collect ocr_page_items 1 images); reflexivity.
Qed.

Lemma str_truthy_nonempty (s : string) : str_truthy s = true <-> s <> EmptyString.
Proof.
  unfold str_truthy. rewrite negb_true_iff. apply String.eqb_neq.
Qed.

Lemma stripped_lines_In (t line : string) :
  In line (stripped_lines t) ->
  In line (map PyStr.strip (split_lines t))
  /\ line <> EmptyString /\ PyStr.strip line = line.
Proof.
  unfold stripped_lines. rewrite !in_map_iff.
  intros [raw [<- Hraw]]. apply filter_In in Hraw. destruct Hraw as [Hin Hne].
  split; [eauto|]. split; [now apply str_truthy_nonempty | apply strip_idempotent].
Qed.

Lemma pdfplumber_page_items_In (n : Z) (t : option string) (item : Item.t) :
  In item (pdfplumber_page_items n t) ->
  exists s, t = Some s
            /\ In (Item.text item) (stripped_lines s)
            /\ (3 < String.length (Item.text item))%nat
            /\ Item.page item = n
            /\ Item.method item = "pdfplumber".
Proof.
  unfold pdfplumber_page_items. destruct t as [s|]; [|intros []].
  destruct (str_truthy s && str_truthy (PyStr.strip s)); [|intros []].
  rewrite in_map_iff. intros [line [<- Hline]].
  apply filter_In in Hline. destruct Hline as [Hin Hlen].
  apply Nat.ltb_lt in Hlen. exists s. simpl. auto.
Qed.

Lemma ocr_page_items_In (n : Z) (t : string) (item : Item.t) :
  In item (ocr_page_items n t) ->
  In (Item.text item) (stripped_lines t)
  /\ (5 < String.length (Item.text item))%nat
  /\ any_alpha (Item.text item) = true
  /\ Item.page item = n
  /\ Item.method item = "OCR".
Proof.
  unfold ocr_page_items.
  destruct (str_truthy (PyStr.strip t)); [|intros []].
  rewrite in_map_iff. intros [line [<- Hline]].
  apply filter_In in Hline. destruct Hline as [Hin Hc].
  apply andb_true_iff in Hc. destruct Hc as [Hlen Ha].
  apply Nat.ltb_lt in Hlen. simpl. auto.
Qed.

Lemma collect_In {A : Type} (f : Z -> A -> list Item.t) (item : Item.t) :
  forall pages n,
    In item (collect f n pages) ->
    exists k a, nth_error pages k = Some (Returned a)
                /\ In item (f (n + Z.of_nat k) a).
Proof.
  induction pages as [|[a|m] rest IH]; intros n; simpl; [intros []| |].
  - intros Hin. apply in_app_or in Hin. destruct Hin as [Hin|Hin].
    + exists 0%nat, a. split; [reflexivity|]. simpl. now rewrite Z.add_0_r.
    + destruct (IH _ Hin) as [k [b [Hk Hb]]]. exists (S k), b.
      split; [exact Hk|].
      replace (n + Z.of_nat (S k)) with (n + 1 + Z.of_nat k) by lia. exact Hb.
  - intros Hin. destruct (IH _ Hin) as [k [b [Hk Hb]]]. exists (S k), b.
    split; [exact Hk|].
    replace (n + Z.of_nat (S k)) with (n + 1 + Z.of_nat k) by lia. exact Hb.
Qed.

Lemma StronglySorted_const_app (n : Z) (l1 l2 : list Z) :
  Forall (fun p => p = n) l1 ->
  StronglySorted Z.le l2 -> Forall (fun p => n <= p) l2 ->
  StronglySorted Z.le (l1 ++ l2).
Proof.
  intros H1 S2 F2. induction H1 as [|p l1 Hp H1 IH]; simpl; [assumption|].
  constructor; [assumption|]. subst p.
  apply Forall_app. split; [|assumption].
  eapply Forall_impl; [|exact H1]. intros q ->. lia.
Qed.

Lemma collect_sorted {A : Type} (f : Z -> A -> list Item.t) :
  (forall n a item, In item (f n a) -> Item.page item = n) ->
  forall pages n,
    StronglySorted Z.le (map Item.page (collect f n pages))
    /\ Forall (fun p => n <= p) (map Item.page (collect f n pages)).
Proof.
  intros Hf. induction pages as [|[a|m] rest IH]; intros n; simpl.
  - split; constructor.
  - destruct (IH (n + 1)) as [Hs Hall].
    assert (Hn : Forall (fun p => p = n) (map Item.page (f n a))).
    { apply Forall_forall. intros p Hp. apply in_map_iff in Hp.
      destruct Hp as [item [<- Hitem]]. now apply (Hf n a). }
    assert (Hall' : Forall (fun p => n <= p) (map Item.page (collect f (n + 1) rest))).
    { eapply Forall_impl; [|exact Hall]. intros p Hp. simpl in Hp. lia. }
    rewrite map_app. split.
    + now apply (StronglySorted_const_app n).
    + apply Forall_app. split; [|assumption].
      eapply Forall_impl; [|exact Hn]. intros p ->. lia.
  - destruct (IH (n + 1)) as [Hs Hall]. split; [assumption|].
    eapply Forall_impl; [|exact Hall]. intros p Hp. simpl in Hp. lia.
Qed.

Lemma extracted_items_cases (P : Providers) :
  extracted_items P = text_layer_items P
  \/ (extracted_items P = ocr_layer_items P
      /\ ocr_layer_items P <> []
      /\ (List.length (text_layer_items P) < 10)%nat
      /\ OCR_AVAILABLE P = true).
Proof.
  unfold extracted_items.
  destruct (Nat.ltb_spec (List.length (text_layer_items P)) 10) as [Hlt|Hge];
    simpl; [|now left].
  destruct (OCR_AVAILABLE P); [|now left].
  destruct (ocr_layer_items P) as [|i l]; [now left|].
  right. split; [reflexivity|]. split; [discriminate|]. auto.
Qed.

Lemma pdfplumber_page_items_page n t item :
  In item (pdfplumber_page_items n t) -> Item.page item = n.
Proof.
  intros H. destruct (pdfplumber_page_items_In n t item H) as [s [_ [_ [_ [Hp _]]]]].
  exact Hp.
Qed.

Lemma ocr_page_items_page n t item :
  In item (ocr_page_items n t) -> Item.page item = n.
Proof.
  intros H. now destruct (ocr_page_items_In n t item H) as [_ [_ [_ [Hp _]]]].
Qed.

Lemma text_layer_item (P : Providers) (item : Item.t) :
  In item (text_layer_items P) ->
  exists pages k t,
    pdf_pages P = Returned pages
    /\ nth_error pages k = Some (Returned (Some t))
    /\ Item.page item = 1 + Z.of_nat k
    /\ In (Item.text item) (stripped_lines t)
    /\ (3 < String.length (Item.text item))%nat
    /\ Item.method item = "pdfplumber".
Proof.
  unfold text_layer_items.
  destruct (PDFPLUMBER_AVAILABLE P); [|intros []].
  destruct (pdf_pages P) as [pages|m]; [|intros []].
  intros Hin. destruct (collect_In _ _ _ _ Hin) as [k [a [Hk Ha]]].
  destruct (pdfplumber_page_items_In _ _ _ Ha) as [t [-> [Hl [Hlen [Hp Hm]]]]].
  exists pages, k, t. auto 10.
Qed.

Lemma ocr_layer_item (P : Providers) (item : Item.t) :
  In item (ocr_layer_items P) ->
  exists images k t,
    ocr_images P = Returned images
    /\ nth_error images k = Some (Returned t)
    /\ Item.page item = 1 + Z.of_nat k
    /\ In (Item.text item) (stripped_lines t)
    /\ (5 < String.length (Item.text item))%nat
    /\ any_alpha (Item.text item) = true
    /\ Item.method item = "OCR".
Proof.
  unfold ocr_layer_items.
  destruct (ocr_images P) as [images|m]; [|intros []].
  intros Hin. destruct (collect_In _ _ _ _ Hin) as [k [t [Hk Ht]]].
  destruct (ocr_page_items_In _ _ _ Ht) as [Hl [Hlen [Ha [Hp Hm]]]].
  exists images, k, t. auto 10.
Qed.

(** X8: every item that the extraction returns has a trimmed text of more
    than 3 characters and a page number of at least 1; an item read by OCR
    has more than 5 characters and contains a letter. *)
Theorem extracted_items_well_formed
    (clock : nat -> string) (P : Providers) (session_id : option string)
    (w : World) (item : Item.t) :
  In item (fst (extract_text_from_pdf clock P session_id w)) ->
  PyStr.strip (Item.text item) = Item.text item
  /\ (3 < String.length (Item.text item))%nat
  /\ 1 <= Item.page item
  /\ (Item.method item = "pdfplumber"
      \/ (Item.method item = "OCR"
          /\ (5 < String.length (Item.text item))%nat
          /\ any_alpha (Item.text item) = true)).
Proof.
  rewrite extract_items. intros Hin.
  destruct (extracted_items_cases P) as [Heq|[Heq _]]; rewrite Heq in Hin.
  - destruct (text_layer_item P item Hin) as [pages [k [t [_ [_ [Hp [Hl [Hlen Hm]]]]]]]].
    destruct (stripped_lines_In _ _ Hl) as [_ [_ Hs]].
    split; [assumption|]. split; [assumption|]. split; [lia | now left].
  - destruct (ocr_layer_item P item Hin)
      as [images [k [t [_ [_ [Hp [Hl [Hlen [Ha Hm]]]]]]]]].
    destruct (stripped_lines_In _ _ Hl) as [_ [_ Hs]].
    split; [assumption|]. split; [lia|]. split; [lia | right; auto].
Qed.

Lemma extracted_items_well_formed_witness :
  PyStr.strip "PROMISSORY NOTE" = "PROMISSORY NOTE"
  /\ (3 < String.length "PROMISSORY NOTE")%nat
  /\ 1 <= 1
  /\ ("pdfplumber" = "pdfplumber"
      \/ ("pdfplumber" = "OCR"
          /\ (5 < String.length "PROMISSORY NOTE")%nat
          /\ any_alpha "PROMISSORY NOTE" = true)).
Proof.
  apply (extracted_items_well_formed example_clock example_providers (Some "session")
           example_world (Item.mk "PROMISSORY NOTE" 1 "pdfplumber")).
  vm_compute. left. reflexivity.
Defined.

(** X9: every returned item is a stripped line of the text that the
    library returned for the page the item is attributed to: of the text
    layer of that page for a "pdfplumber" item, of the OCR reading of that
    page for an "OCR" item. *)
Theorem extracted_item_is_line_of_its_page
    (clock : nat -> string) (P : Providers) (session_id : option string)
    (w : World) (item : Item.t) :
  In item (fst (extract_text_from_pdf clock P session_id w)) ->
  (exists pages t,
      Item.method item = "pdfplumber"
      /\ pdf_pages P = Returned pages
      /\ nth_error pages (Z.to_nat (Item.page item - 1)) = Some (Returned (Some t))
      /\ In (Item.text item) (map PyStr.strip (split_lines t)))
  \/ (exists images t,
         Item.method item = "OCR"
         /\ ocr_images P = Returned images
         /\ nth_error images (Z.to_nat (Item.page item - 1)) = Some (Returned t)
         /\ In (Item.text item) (map PyStr.strip (split_lines t))).
Proof.
  rewrite extract_items. intros Hin.
  destruct (extracted_items_cases P) as [Heq|[Heq _]]; rewrite Heq in Hin.
  - left.
    destruct (text_layer_item P item Hin) as [pages [k [t [Hpg [Hk [Hp [Hl [_ Hm]]]]]]]].
    destruct (stripped_lines_In _ _ Hl) as [Hraw _].
    exists pages, t. rewrite Hp.
    replace (Z.to_nat (1 + Z.of_nat k - 1)) with k by lia. auto.
  - right.
    destruct (ocr_layer_item P item Hin)
      as [images [k [t [Hpg [Hk [Hp [Hl [_ [_ Hm]]]]]]]]].
    destruct (stripped_lines_In _ _ Hl) as [Hraw _].
    exists images, t. rewrite Hp.
    replace (Z.to_nat (1 + Z.of_nat k - 1)) with k by lia. auto.
Qed.

Lemma extracted_item_is_line_of_its_page_witness :
  (exists pages t,
      "pdfplumber" = "pdfplumber"
      /\ pdf_pages example_providers = Returned pages
      /\ nth_error pages (Z.to_nat (1 - 1)) = Some (Returned (Some t))
      /\ In "PROMISSORY NOTE" (map PyStr.strip (split_lines t)))
  \/ (exists images t,
         "pdfplumber" = "OCR"
         /\ ocr_images example_providers = Returned images
         /\ nth_error images (Z.to_nat (1 - 1)) = Some (Returned t)
         /\ In "PROMISSORY NOTE" (map PyStr.strip (split_lines t))).
Proof.
  apply (extracted_item_is_line_of_its_page example_clock example_providers
           (Some "session") example_world (Item.mk "PROMISSORY NOTE" 1 "pdfplumber")).
  vm_compute. left. reflexivity.
Defined.

(** X10: the extraction returns its items in ascending order of page. *)
Theorem extracted_items_page_ascending
    (clock : nat -> string) (P : Providers) (session_id : option string) (w : World) :
  Sorted Z.le (map Item.page (fst (extract_text_from_pdf clock P session_id w))).
Proof.
  rewrite extract_items. apply StronglySorted_Sorted.
  destruct (extracted_items_cases P) as [Heq|[Heq _]]; rewrite Heq.
  - unfold text_layer_items.
    destruct (PDFPLUMBER_AVAILABLE P); [|constructor].
    destruct (pdf_pages P) as [pages|m]; [|constructor].
    apply (collect_sorted pdfplumber_page_items pdfplumber_page_items_page).
  - unfold ocr_layer_items.
    destruct (ocr_images P) as [images|m]; [|constructor].
    apply (collect_sorted ocr_page_items ocr_page_items_page).
Qed.

(** X11: the returned items all come from the same method: the OCR items
    replace the items of the text layer, they are never mixed with them. *)
Theorem extracted_items_single_method
    (clock : nat -> string) (P : Providers) (session_id : option string) (w : World) :
  (forall item, In item (fst (extract_text_from_pdf clock P session_id w)) ->
                Item.method item = "pdfplumber")
  \/ (forall item, In item (fst (extract_text_from_pdf clock P session_id w)) ->
                   Item.method item = "OCR").
Proof.
  rewrite extract_items.
  destruct (extracted_items_cases P) as [Heq|[Heq _]]; rewrite Heq.
  - left. intros item Hin.
    now destruct (text_layer_item P item Hin) as [? [? [? [_ [_ [_ [_ [_ Hm]]]]]]]].
  - right. intros item Hin.
    now destruct (ocr_layer_item P item Hin) as [? [? [? [_ [_ [_ [_ [_ [_ Hm]]]]]]]]].
Qed.

(** X12: when the text layer gives 10 items or more, or OCR is not
    available, the extraction returns the items of the text layer. *)
Theorem text_layer_preferred
    (clock : nat -> string) (P : Providers) (session_id : option string) (w : World) :
  (10 <= List.length (fst (pdfplumber_extraction clock P session_id w)))%nat
  \/ OCR_AVAILABLE P = false ->
  fst (extract_text_from_pdf clock P session_id w)
  = fst (pdfplumber_extraction clock P session_id w).
Proof.
  rewrite extract_items, pdfplumber_extraction_items. unfold extracted_items.
  intros [Hlen| ->].
  - apply Nat.ltb_ge in Hlen. now rewrite Hlen.
  - now rewrite andb_false_r.
Qed.

Lemma text_layer_preferred_witness :
  fst (extract_text_from_pdf example_clock example_providers (Some "session")
         example_world)
  = fst (pdfplumber_extraction example_clock example_providers (Some "session")
           example_world).
Proof.
  apply (text_layer_preferred example_clock example_providers (Some "session")
           example_world).
  right. reflexivity.
Defined.

(** X13: the choice between the text layer and OCR.  The extraction
    returns the OCR items, and none of the text layer, exactly when the
    text layer gave fewer than 10 items, OCR is available and OCR produced
    at least one item; in every other case it returns the items of the
    text layer.  So a text layer of up to 9 items is discarded as soon as
    OCR reads one line, and the result is empty only if the text layer
    gave no item. *)
Theorem ocr_fallback_choice
    (clock : nat -> string) (P : Providers) (session_id : option string) (w : World) :
  ((List.length (fst (pdfplumber_extraction clock P session_id w)) < 10)%nat
   /\ OCR_AVAILABLE P = true /\ ocr_layer_items P <> [] ->
   fst (extract_text_from_pdf clock P session_id w) = ocr_layer_items P)
  /\ (~ ((List.length (fst (pdfplumber_extraction clock P session_id w)) < 10)%nat
         /\ OCR_AVAILABLE P = true /\ ocr_layer_items P <> []) ->
      fst (extract_text_from_pdf clock P session_id w)
      = fst (pdfplumber_extraction clock P session_id w))
  /\ (fst (extract_text_from_pdf clock P session_id w) = [] ->
      fst (pdfplumber_extraction clock P session_id w) = []).
Proof.
  rewrite extract_items, pdfplumber_extraction_items. unfold extracted_items.
  destruct (Nat.ltb_spec (List.length (text_layer_items P)) 10) as [Hlt|Hge];
    destruct (OCR_AVAILABLE P); simpl;
    try (split; [intros [H1 [H2 H3]]; (lia || discriminate)
                | split; [reflexivity | auto]]).
  destruct (ocr_layer_items P) as [|i items] eqn:Ho.
  - split; [intros [_ [_ H]]; now contradiction H|]. split; [reflexivity | auto].
  - split; [reflexivity|]. split; [|discriminate].
    intros Hn. exfalso. apply Hn. split; [assumption|].
    split; [reflexivity | discriminate].
Qed.

Lemma ocr_fallback_choice_witness :
  fst (extract_text_from_pdf example_clock scanned_providers (Some "session")
         example_world)
  = ocr_layer_items scanned_providers
  /\ fst (extract_text_from_pdf example_clock example_providers (Some "session")
            example_world)
     = fst (pdfplumber_extraction example_clock example_providers (Some "session")
              example_world).
Proof.
  split.
  - apply (proj1 (ocr_fallback_choice example_clock scanned_providers
                    (Some "session") example_world)).
    split; [vm_compute; lia|]. split; [reflexivity | vm_compute; discriminate].
  - apply (proj1 (proj2 (ocr_fallback_choice example_clock example_providers
                           (Some "session") example_world))).
    intros [_ [H _]]. vm_compute in H. discriminate H.
Defined.

(** X14: the returned items depend on what the libraries deliver only:
    not on the session, the recorded progress or the clock. *)
Theorem extraction_independent_of_progress
    (clock clock' : nat -> string) (P : Providers)
    (session_id session_id' : option string) (w w' : World) :
  fst (extract_text_from_pdf clock P session_id w)
  = fst (extract_text_from_pdf clock' P session_id' w').
Proof. now rewrite !extract_items. Qed.

(** ** Progress tracking *)

Lemma progress_lookup_setitem d k v k' :
  progress_lookup (progress_setitem d k v) k'
  = if String.eqb k' k then Some v else progress_lookup d k'.
Proof.
  induction d as [|[k0 v0] d IH]; simpl.
  - destruct (String.eqb k' k); reflexivity.
  - destruct (String.eqb_spec k k0) as [->|Hk]; simpl.
    + destruct (String.eqb k' k0); reflexivity.
    + rewrite IH. destruct (String.eqb_spec k' k0) as [->|]; [|reflexivity].
      destruct (String.eqb_spec k0 k); congruence.
Qed.

Lemma update_progress_other clock sid current total status w w' other :
  update_progress clock sid current total status w = Some w' ->
  other <> sid ->
  progress_lookup (progress_data w') other = progress_lookup (progress_data w) other.
Proof.
  unfold update_progress.
  destruct ((total >? 0)%Z && percentage_overflows current total); [discriminate|].
  intros [= <-] Hne. simpl. rewrite progress_lookup_setitem.
  destruct (String.eqb_spec other sid); [contradiction | reflexivity].
Qed.

Lemma report_progress_other clock session_id current total status w w' other :
  report_progress clock session_id current total status w = Some w' ->
  session_id <> Some other ->
  progress_lookup (progress_data w') other = progress_lookup (progress_data w) other.
Proof.
  unfold report_progress. intros H Hne.
  destruct session_id as [sid|]; [|now injection H as <-].
  destruct (str_truthy sid); [|now injection H as <-].
  apply (update_progress_other _ _ _ _ _ _ _ _ H). congruence.
Qed.

Lemma pdfplumber_loop_other clock session_id total other :
  session_id <> Some other ->
  forall pages n tc w,
    progress_lookup
      (progress_data (snd (pdfplumber_loop clock session_id total n pages tc w))) other
    = progress_lookup (progress_data w) other.
Proof.
  intros Hne. induction pages as [|page rest IH]; intros n tc w; [reflexivity|].
  cbn [pdfplumber_loop].
  destruct (report_progress clock session_id n total "extracting_text" w)
    as [w1|] eqn:Hr; [|apply IH].
  destruct page as [t|m]; rewrite IH;
    exact (report_progress_other _ _ _ _ _ _ _ _ Hr Hne).
Qed.

Lemma ocr_loop_other clock session_id total other :
  session_id <> Some other ->
  forall images n tc w,
    progress_lookup
      (progress_data (snd (ocr_loop clock session_id total n images tc w))) other
    = progress_lookup (progress_data w) other.
Proof.
  intros Hne. induction images as [|image rest IH]; intros n tc w; [reflexivity|].
  cbn [ocr_loop].
  destruct (report_progress clock session_id n total
              (String.append "ocr_page_" (str_of_int n)) w) as [w1|] eqn:Hr;
    [|apply IH].
  destruct image as [t|m]; rewrite IH;
    exact (report_progress_other _ _ _ _ _ _ _ _ Hr Hne).
Qed.

Lemma extract_other clock P session_id w other :
  session_id <> Some other ->
  progress_lookup
    (progress_data (snd (extract_text_from_pdf clock P session_id w))) other
  = progress_lookup (progress_data w) other.
Proof.
  intros Hne. unfold extract_text_from_pdf.
  assert (H1 : progress_lookup
                 (progress_data (snd (pdfplumber_extraction clock P session_id w)))
                 other
               = progress_lookup (progress_data w) other).
  { unfold pdfplumber_extraction.
    destruct (PDFPLUMBER_AVAILABLE P); [|reflexivity].
    destruct (pdf_pages P) as [pages|m]; [|reflexivity].
    destruct (report_progress clock session_id 0 (Z.of_nat (List.length pages))
                "extracting_text" w) as [w0|] eqn:Hr; [|reflexivity].
    rewrite pdfplumber_loop_other by assumption.
    exact (report_progress_other _ _ _ _ _ _ _ _ Hr Hne). }
  destruct (pdfplumber_extraction clock P session_id w) as [tc w1]. simpl in H1.
  destruct ((List.length tc <? 10)%nat && OCR_AVAILABLE P); [|exact H1].
  destruct (ocr_images P) as [images|m]; [|exact H1].
  destruct (report_progress clock session_id 0 (Z.of_nat (List.length images))
              "ocr_processing" w1) as [w2|] eqn:Hr; [|exact H1].
  pose proof (ocr_loop_other clock session_id (Z.of_nat (List.length images)) other
                Hne images 1 [] w2) as H3.
  destruct (ocr_loop clock session_id (Z.of_nat (List.length images)) 1 images [] w2)
    as [oc w3].
  simpl in H3.
  assert (H : progress_lookup (progress_data w3) other
              = progress_lookup (progress_data w) other).
  { rewrite H3, (report_progress_other _ _ _ _ _ _ _ _ Hr Hne). exact H1. }
  destruct oc; exact H.
Qed.

(** X15: the extraction reports progress under its own session only: the
    progress recorded for any other session is what it was before. *)
Theorem extraction_reports_own_session_only
    (clock : nat -> string) (P : Providers) (session_id : option string)
    (w : World) (other : string) :
  session_id <> Some other ->
  get_progress other (snd (extract_text_from_pdf clock P session_id w))
  = get_progress other w.
Proof.
  intros Hne. unfold get_progress. now rewrite extract_other.
Qed.

Lemma extraction_reports_own_session_only_witness :
  get_progress "other"
    (snd (extract_text_from_pdf example_clock example_providers (Some "session")
            example_world))
  = get_progress "other" example_world.
Proof.
  apply (extraction_reports_own_session_only example_clock example_providers
           (Some "session") example_world "other").
  discriminate.
Defined.

Lemma update_progress_same clock sid current total status w w' :
  update_progress clock sid current total status w = Some w' ->
  progress_lookup (progress_data w') sid
  = Some {| Progress.current := current;
            Progress.total := total;
            Progress.status := status;
            Progress.percentage :=
              if (total >? 0)%Z then percentage_of current total else percentage_zero;
            Progress.timestamp := clock (clock_reads w) |}.
Proof.
  unfold update_progress.
  destruct ((total >? 0)%Z && percentage_overflows current total); [discriminate|].
  intros [= <-]. simpl. now rewrite progress_lookup_setitem, String.eqb_refl.
Qed.

(** X16: [update_progress] raises [OverflowError], and records nothing,
    exactly when [total] is positive and [current / total] times 100
    leaves the range of a float; it returns whenever [total] is not
    positive or [current] lies between 0 and [total].  When it returns,
    the progress route answers 200 for the updated session with the
    reported values, the percentage being zero when the total is not
    positive, and for every other session it answers as before. *)
Theorem progress_update_then_get
    (clock : nat -> string) (session_id : string) (current total : Z)
    (status : string) (w : World) :
  (update_progress clock session_id current total status w = None
   <-> (0 < total /\ 11529215046068469 * 2 ^ 964 * total < Z.abs current))
  /\ (total <= 0 \/ 0 <= current <= total ->
      exists w', update_progress clock session_id current total status w = Some w')
  /\ (forall w',
         update_progress clock session_id current total status w = Some w' ->
         get_progress session_id w'
         = (ProgressBody
              {| Progress.current := current;
                 Progress.total := total;
                 Progress.status := status;
                 Progress.percentage :=
                   if (total >? 0)%Z then percentage_of current total
                   else percentage_zero;
                 Progress.timestamp := clock (clock_reads w) |}, 200)
         /\ (total <= 0 ->
             exists entry,
               get_progress session_id w' = (ProgressBody entry, 200)
               /\ Progress.percentage entry = percentage_zero)
         /\ (forall other, other <> session_id ->
               get_progress other w' = get_progress other w)).
Proof.
  assert (Hnone : update_progress clock session_id current total status w = None
                  <-> (0 < total
                       /\ 11529215046068469 * 2 ^ 964 * total < Z.abs current)).
  { unfold update_progress, percentage_overflows.
    remember (11529215046068469 * 2 ^ 964 * total) as bound eqn:Hbound.
    clear Hbound.
    destruct (Z.gtb_spec total 0) as [Ht|Ht];
      destruct (Z.ltb_spec bound (Z.abs current)) as [Hc|Hc]; simpl.
    - split; [intros _; split; lia | reflexivity].
    - split; [discriminate | intros [_ H]; lia].
    - split; [discriminate | intros [H _]; lia].
    - split; [discriminate | intros [H _]; lia]. }
  split; [exact Hnone|]. split.
  - intros Hsafe.
    destruct (update_progress clock session_id current total status w) as [w'|] eqn:Hu;
      [eauto|].
    exfalso. destruct (proj1 Hnone eq_refl) as [Ht Hc].
    destruct Hsafe as [Hle|Hrange]; [lia|].
    assert (Hthr : 1 <= 11529215046068469 * 2 ^ 964) by (vm_compute; discriminate).
    rewrite Z.abs_eq in Hc by lia. nia.
  - intros w' Hu.
    assert (H : get_progress session_id w'
                = (ProgressBody
                     {| Progress.current := current;
                        Progress.total := total;
                        Progress.status := status;
                        Progress.percentage :=
                          if (total >? 0)%Z then percentage_of current total
                          else percentage_zero;
                        Progress.timestamp := clock (clock_reads w) |}, 200)).
    { unfold get_progress. now rewrite (update_progress_same _ _ _ _ _ _ _ Hu). }
    split; [exact H|]. split.
    + intros Ht. eexists. split; [exact H|]. simpl.
      destruct (Z.gtb_spec total 0); [lia | reflexivity].
    + intros other Hne. unfold get_progress.
      now rewrite (update_progress_other _ _ _ _ _ _ _ _ Hu Hne).
Qed.

Lemma progress_update_then_get_witness :
  update_progress example_clock "session" (10 ^ 400) 1 "extracting_text" example_world
  = None
  /\ (exists w',
         update_progress example_clock "session" 0 0 "extracting_text" example_world
         = Some w')
  /\ (exists entry,
         get_progress "session"
           {| progress_data :=
                [("session",
                  Progress.mk 0 0 "extracting_text" percentage_zero
                    (example_clock 0))];
              clock_reads := 1 |}
         = (ProgressBody entry, 200)
         /\ Progress.percentage entry = percentage_zero)
  /\ get_progress "other"
       {| progress_data :=
            [("session",
              Progress.mk 0 0 "extracting_text" percentage_zero (example_clock 0))];
          clock_reads := 1 |}
     = get_progress "other" example_world.
Proof.
  destruct (progress_update_then_get example_clock "session" (10 ^ 400) 1
              "extracting_text" example_world) as [Hnone _].
  destruct (progress_update_then_get example_clock "session" 0 0
              "extracting_text" example_world) as [_ [Hsafe Hget]].
  split; [|split].
  - apply Hnone. split; vm_compute; reflexivity.
  - apply Hsafe. left. lia.
  - destruct (Hget _ eq_refl) as [_ [Hzero Hother]]. split.
    + apply Hzero. lia.
    + apply Hother. discriminate.
Defined.

(** ** The analysis route *)

Lemma upload_rejected_not_accepted (file : option Upload) :
  upload_rejected file -> ~ upload_accepted file.
Proof.
  intros [->|[f [-> H]]] [g [Hg [Hn [He Hc]]]]; [discriminate|].
  injection Hg as <-. destruct H as [H|[H|H]]; congruence.
Qed.

(** The four ways the route can end. *)
Lemma analyze_document_cases clock P session_id request_files w :
  (exists message,
      request_files = Failed message
      /\ analyze_document clock P session_id request_files w
         = ((ExceptionBody (raised_by_request message), 500), w))
  \/ (exists file,
         request_files = Returned file
         /\ upload_rejected file
         /\ exists message,
              analyze_document clock P session_id request_files w
              = ((ErrorBody message, 400), w))
  \/ (exists file,
         request_files = Returned file
         /\ upload_accepted file
         /\ extracted_items P = []
         /\ exists message w',
              analyze_document clock P session_id request_files w
              = ((ErrorBody message, 400), w'))
  \/ (exists file,
         request_files = Returned file
         /\ upload_accepted file
         /\ extracted_items P <> []
         /\ exists sections w3 w4,
              analyze_mortgage_sections (extracted_items P) = Ok sections
              /\ update_progress clock session_id 1 1 "completed" w3 = Some w4
              /\ analyze_document clock P session_id request_files w
                 = ((AnalysisBody session_id sections
                       (count_pages (extracted_items P))
                       (List.length (extracted_items P))
                       "local" (OCR_AVAILABLE P) (PDFPLUMBER_AVAILABLE P), 200),
                    w4)).
Proof.
  unfold analyze_document. destruct request_files as [file|message].
  2:{ left. eauto. }
  right. destruct file as [f|].
  { destruct (String.eqb_spec (filename f) EmptyString) as [Hn|Hn].
    { left. exists (Some f). split; [reflexivity|].
      split; [right; exists f; auto | eauto]. }
    destruct (endswith (lower (filename f)) ".pdf") eqn:He; cbn [negb].
    2:{ left. exists (Some f). split; [reflexivity|].
        split; [right; exists f; auto | eauto]. }
    destruct (file_content f) as [|b bs] eqn:Hc; cbn [List.length Nat.eqb].
    { left. exists (Some f). split; [reflexivity|].
      split; [right; exists f; auto | eauto]. }
    assert (Hacc : upload_accepted (Some f)).
    { exists f. rewrite Hc. repeat split; try assumption. discriminate. }
    right.
    destruct (update_progress_in_range clock session_id 0 1 "starting" w)
      as [w1 ->]; [lia|].
    pose proof (extract_items clock P (Some session_id) w1) as Hitems.
    destruct (extract_text_from_pdf clock P (Some session_id) w1) as [tc w2].
    simpl in Hitems. subst tc.
    destruct (extracted_items P) as [|i items] eqn:Hx.
    - left. exists (Some f). split; [reflexivity|]. split; [assumption|].
      split; [reflexivity | eauto].
    - right. exists (Some f). split; [reflexivity|]. split; [assumption|].
      split; [discriminate|].
      destruct (update_progress_in_range clock session_id 1 1 "analyzing" w2)
        as [w3 ->]; [lia|].
      destruct (analyze_with_total section_rules (i :: items)) as [sections Hs].
      fold (analyze_mortgage_sections (i :: items)) in Hs.
      rewrite Hs.
      destruct (update_progress_in_range clock session_id 1 1 "completed" w3)
        as [w4 Hw4].
      + lia.
      + rewrite Hw4. exists sections, w3, w4. auto. }
  left. exists None. split; [reflexivity|]. split; [now left | eauto].
Qed.

(** X17: the analysis route answers 500 exactly when the request cannot
    be read, [request.files] raising inside the [try]; a request that is
    read is answered 200 with an analysis body or 400 with an error
    message: neither the extraction, the progress reports nor the
    classifier raises an exception into the route. *)
Theorem analyze_document_500_iff_request_unread
    (clock : nat -> string) (P : Providers) (session_id : string)
    (request_files : outcome (option Upload)) (w : World) :
  (snd (fst (analyze_document clock P session_id request_files w)) = 500
   <-> exists message, request_files = Failed message)
  /\ (forall message,
         request_files = Failed message ->
         analyze_document clock P session_id request_files w
         = ((ExceptionBody (raised_by_request message), 500), w))
  /\ (forall file,
         request_files = Returned file ->
         (exists message,
             fst (analyze_document clock P session_id request_files w)
             = (ErrorBody message, 400))
         \/ (exists sections total_pages total_text_items,
                fst (analyze_document clock P session_id request_files w)
                = (AnalysisBody session_id sections total_pages total_text_items
                     "local" (OCR_AVAILABLE P) (PDFPLUMBER_AVAILABLE P), 200))).
Proof.
  destruct (analyze_document_cases clock P session_id request_files w)
    as [[m [Hreq H]]
       |[[file [Hreq [_ [m H]]]]
        |[[file [Hreq [_ [_ [m [w' H]]]]]]
         |[file [Hreq [_ [_ [s [w3 [w4 [_ [_ H]]]]]]]]]]]];
    rewrite H; simpl; subst request_files.
  - split; [split; eauto|]. split; [intros m' [= <-]; reflexivity|].
    intros file [=].
  - split; [split; [discriminate | intros [m' [=]]]|].
    split; [intros m' [=]|]. intros file' _. left. eauto.
  - split; [split; [discriminate | intros [m' [=]]]|].
    split; [intros m' [=]|]. intros file' _. left. eauto.
  - split; [split; [discriminate | intros [m' [=]]]|].
    split; [intros m' [=]|]. intros file' _. right. eauto.
Qed.

Lemma analyze_document_500_iff_request_unread_witness :
  analyze_document example_clock example_providers "session"
    (Failed "413 Request Entity Too Large") example_world
  = ((ExceptionBody (raised_by_request "413 Request Entity Too Large"), 500),
     example_world)
  /\ ((exists message,
          fst (analyze_document example_clock example_providers "session"
                 (Returned (Some example_upload)) example_world)
          = (ErrorBody message, 400))
      \/ (exists sections total_pages total_text_items,
             fst (analyze_document example_clock example_providers "session"
                    (Returned (Some example_upload)) example_world)
             = (AnalysisBody "session" sections total_pages total_text_items
                  "local" (OCR_AVAILABLE example_providers)
                  (PDFPLUMBER_AVAILABLE example_providers), 200))).
Proof.
  split.
  - apply (proj1 (proj2 (analyze_document_500_iff_request_unread example_clock
                           example_providers "session"
                           (Failed "413 Request Entity Too Large") example_world))).
    reflexivity.
  - apply (proj2 (proj2 (analyze_document_500_iff_request_unread example_clock
                           example_providers "session"
                           (Returned (Some example_upload)) example_world))
             (Some example_upload)).
    reflexivity.
Defined.

(** X18: a request that is read and whose upload is missing, has an empty
    name, a name that does not end in ".pdf" whatever the case of its
    letters, or no content is answered 400 before anything is recorded;
    a request that cannot be read is answered 500; in both cases the
    progress data is left as it was. *)
Theorem rejected_upload_leaves_no_trace
    (clock : nat -> string) (P : Providers) (session_id : string)
    (request_files : outcome (option Upload)) (w : World) :
  (forall file,
      request_files = Returned file -> upload_rejected file ->
      snd (fst (analyze_document clock P session_id request_files w)) = 400
      /\ snd (analyze_document clock P session_id request_files w) = w)
  /\ (forall message,
         request_files = Failed message ->
         snd (fst (analyze_document clock P session_id request_files w)) = 500
         /\ snd (analyze_document clock P session_id request_files w) = w).
Proof.
  destruct (analyze_document_cases clock P session_id request_files w)
    as [[m [Hreq H]]
       |[[file [Hreq [Hrej [m H]]]]
        |[[file [Hreq [Hacc _]]]
         |[file [Hreq [Hacc _]]]]]]; subst request_files.
  - rewrite H. split; [intros file [=]|]. intros m' _. simpl. auto.
  - rewrite H. split; [|intros m' [=]]. intros file' _ _. simpl. auto.
  - split; [|intros m' [=]]. intros file' [= <-] Hrej.
    now apply upload_rejected_not_accepted in Hrej.
  - split; [|intros m' [=]]. intros file' [= <-] Hrej.
    now apply upload_rejected_not_accepted in Hrej.
Qed.

Lemma rejected_upload_leaves_no_trace_witness :
  (snd (fst (analyze_document example_clock example_providers "session"
               (Returned (Some (mkUpload "notes.txt" [Byte.x61]))) example_world))
   = 400
   /\ snd (analyze_document example_clock example_providers "session"
             (Returned (Some (mkUpload "notes.txt" [Byte.x61]))) example_world)
      = example_world)
  /\ (snd (fst (analyze_document example_clock example_providers "session"
                  (Failed "413 Request Entity Too Large") example_world))
      = 500
      /\ snd (analyze_document example_clock example_providers "session"
                (Failed "413 Request Entity Too Large") example_world)
         = example_world).
Proof.
  split.
  - apply (proj1 (rejected_upload_leaves_no_trace example_clock example_providers
                    "session" (Returned (Some (mkUpload "notes.txt" [Byte.x61])))
                    example_world)
             (Some (mkUpload "notes.txt" [Byte.x61]))).
    + reflexivity.
    + right. exists (mkUpload "notes.txt" [Byte.x61]).
      split; [reflexivity|]. right. left. vm_compute. reflexivity.
  - apply (proj2 (rejected_upload_leaves_no_trace example_clock example_providers
                    "session" (Failed "413 Request Entity Too Large") example_world)
             "413 Request Entity Too Large").
    reflexivity.
Defined.

(** X19: the analysis route answers 200 exactly when the request is read,
    the upload passes the four checks and the extraction returns at least
    one item. *)
Theorem analyze_document_ok_iff
    (clock : nat -> string) (P : Providers) (session_id : string)
    (request_files : outcome (option Upload)) (w : World) :
  snd (fst (analyze_document clock P session_id request_files w)) = 200
  <-> (exists file,
          request_files = Returned file
          /\ upload_accepted file
          /\ fst (extract_text_from_pdf clock P (Some session_id) w) <> []).
Proof.
  rewrite extract_items.
  destruct (analyze_document_cases clock P session_id request_files w)
    as [[m [Hreq H]]
       |[[file [Hreq [Hrej [m H]]]]
        |[[file [Hreq [Hacc [Hx [m [w' H]]]]]]
         |[file [Hreq [Hacc [Hx [s [w3 [w4 [_ [_ H]]]]]]]]]]]];
    rewrite H; simpl; subst request_files.
  - split; [discriminate|]. intros [file [[=] _]].
  - split; [discriminate|]. intros [file' [[= <-] [Hacc _]]].
    now apply upload_rejected_not_accepted in Hrej.
  - split; [discriminate|]. intros [file' [_ [_ Hne]]]. contradiction.
  - split; [|reflexivity]. intros _. eauto.
Qed.

Lemma count_pages_bounds (items : list Item.t) :
  items <> [] -> (1 <= count_pages items <= List.length items)%nat.
Proof.
  intros Hne. unfold count_pages. split.
  - destruct items as [|i items]; [contradiction|].
    assert (Hin : In (Item.page i) (nodup Z.eq_dec (map Item.page (i :: items))))
      by (apply nodup_In; now left).
    destruct (nodup Z.eq_dec (map Item.page (i :: items))); [destruct Hin | simpl; lia].
  - rewrite <- (length_map Item.page items).
    apply NoDup_incl_length; [apply NoDup_nodup|].
    intros p Hp. now apply nodup_In in Hp.
Qed.

(** X20: a 200 answer of the analysis route carries the session id of
    the request, the classifier's result on the extracted items, the
    number of those items and the number of different pages among them,
    which is at least 1 and at most the number of items. *)
Theorem analyze_document_answer
    (clock : nat -> string) (P : Providers) (session_id : string)
    (request_files : outcome (option Upload)) (w : World)
    (session_id' : string) (sections : list IdentifiedSection)
    (total_pages total_text_items : nat) (processing_method : string)
    (ocr_available pdfplumber_available : bool) (code : Z) :
  fst (analyze_document clock P session_id request_files w)
  = (AnalysisBody session_id' sections total_pages total_text_items
       processing_method ocr_available pdfplumber_available, code) ->
  code = 200
  /\ session_id' = session_id
  /\ analyze_mortgage_sections (fst (extract_text_from_pdf clock P (Some session_id) w))
     = Ok sections
  /\ total_text_items
     = List.length (fst (extract_text_from_pdf clock P (Some session_id) w))
  /\ total_pages = count_pages (fst (extract_text_from_pdf clock P (Some session_id) w))
  /\ (1 <= total_pages <= total_text_items)%nat.
Proof.
  rewrite extract_items.
  destruct (analyze_document_cases clock P session_id request_files w)
    as [[m [_ H]]
       |[[file [_ [_ [m H]]]]
        |[[file [_ [_ [_ [m [w' H]]]]]]
         |[file [_ [_ [Hx [s [w3 [w4 [Hs [_ H]]]]]]]]]]]];
    rewrite H; simpl; try discriminate.
  intros [= <- <- <- <- _ _ _ <-].
  repeat (split; [assumption || reflexivity|]).
  now apply count_pages_bounds.
Qed.

Lemma analyze_document_answer_witness :
  200 = 200
  /\ "session" = "session"
  /\ analyze_mortgage_sections
       (fst (extract_text_from_pdf example_clock example_providers (Some "session")
               example_world))
     = Ok [mkSection "Promissory Note" 1 high "PROMISSORY NOTE" 10 "PROMISSORY NOTE"]
  /\ 1%nat
     = List.length
         (fst (extract_text_from_pdf example_clock example_providers (Some "session")
                 example_world))
  /\ 1%nat
     = count_pages
         (fst (extract_text_from_pdf example_clock example_providers (Some "session")
                 example_world))
  /\ (1 <= 1 <= 1)%nat.
Proof.
  apply (analyze_document_answer example_clock example_providers "session"
           (Returned (Some example_upload)) example_world "session"
           [mkSection "Promissory Note" 1 high "PROMISSORY NOTE" 10 "PROMISSORY NOTE"]
           1 1 "local" false true 200).
  vm_compute. reflexivity.
Defined.

(** X21: after a 200 answer of the analysis route, the progress route
    answers 200 for the session of the request, with status "completed"
    and 1 of 1 done. *)
Theorem analyze_document_completes_progress
    (clock : nat -> string) (P : Providers) (session_id : string)
    (request_files : outcome (option Upload)) (w : World) :
  snd (fst (analyze_document clock P session_id request_files w)) = 200 ->
  exists entry,
    get_progress session_id (snd (analyze_document clock P session_id request_files w))
    = (ProgressBody entry, 200)
    /\ Progress.status entry = "completed"
    /\ Progress.current entry = 1
    /\ Progress.total entry = 1
    /\ Progress.percentage entry = percentage_of 1 1.
Proof.
  destruct (analyze_document_cases clock P session_id request_files w)
    as [[m [_ H]]
       |[[file [_ [_ [m H]]]]
        |[[file [_ [_ [_ [m [w' H]]]]]]
         |[file [_ [_ [_ [s [w3 [w4 [_ [Hw4 H]]]]]]]]]]]];
    rewrite H; simpl; try discriminate.
  intros _. unfold get_progress.
  rewrite (update_progress_same _ _ _ _ _ _ _ Hw4).
  eexists. split; [reflexivity|]. simpl. auto.
Qed.

Lemma analyze_document_completes_progress_witness :
  exists entry,
    get_progress "session"
      (snd (analyze_document example_clock example_providers "session"
              (Returned (Some example_upload)) example_world))
    = (ProgressBody entry, 200)
    /\ Progress.status entry = "completed"
    /\ Progress.current entry = 1
    /\ Progress.total entry = 1
    /\ Progress.percentage entry = percentage_of 1 1.
Proof.
  apply (analyze_document_completes_progress example_clock example_providers
           "session" (Returned (Some example_upload)) example_world).
  vm_compute. reflexivity.
Defined.

Lemma filter_none {A : Type} (f : A -> bool) (l : list A) :
  (forall x, In x l -> f x = false) -> filter f l = [].
Proof.
  induction l as [|x l IH]; intros H; simpl; [reflexivity|].
  rewrite (H x (or_introl eq_refl)). apply IH. intros y Hy. apply H. now right.
Qed.

(** X22: text without any known section is not an error: when the request
    is read, the upload is accepted and the extraction returns items none
    of which contains a pattern of the catalog, the route answers 200 with
    an empty list of sections. *)
Theorem no_section_is_not_an_error
    (clock : nat -> string) (P : Providers) (session_id : string)
    (file : option Upload) (w : World) :
  upload_accepted file ->
  fst (extract_text_from_pdf clock P (Some session_id) w) <> [] ->
  (forall item, In item (fst (extract_text_from_pdf clock P (Some session_id) w)) ->
                matches_some_rule item = false) ->
  fst (analyze_document clock P session_id (Returned file) w)
  = (AnalysisBody session_id []
       (count_pages (fst (extract_text_from_pdf clock P (Some session_id) w)))
       (List.length (fst (extract_text_from_pdf clock P (Some session_id) w)))
       "local" (OCR_AVAILABLE P) (PDFPLUMBER_AVAILABLE P), 200).
Proof.
  rewrite extract_items. intros Hacc Hne Hnone.
  destruct (analyze_document_cases clock P session_id (Returned file) w)
    as [[m [[=] _]]
       |[[file' [[= <-] [Hrej _]]]
        |[[file' [_ [_ [Hx _]]]]
         |[file' [_ [_ [_ [s [w3 [w4 [Hs [_ H]]]]]]]]]]]].
  - now apply upload_rejected_not_accepted in Hrej.
  - contradiction.
  - rewrite H. simpl. repeat f_equal.
    assert (Hempty : analyze_mortgage_sections (extracted_items P)
                     = analyze_mortgage_sections []).
    { apply analyze_best_ext. intros rule Hrule.
      rewrite <- (best_filter_relevant rule Hrule (extracted_items P) None).
      now rewrite (filter_none matches_some_rule (extracted_items P) Hnone). }
    rewrite Hempty in Hs. now injection Hs as <-.
Qed.

Lemma no_section_is_not_an_error_witness :
  fst (analyze_document example_clock plain_providers "session"
         (Returned (Some example_upload)) example_world)
  = (AnalysisBody "session" []
       (count_pages
          (fst (extract_text_from_pdf example_clock plain_providers (Some "session")
                  example_world)))
       (List.length
          (fst (extract_text_from_pdf example_clock plain_providers (Some "session")
                  example_world)))
       "local" (OCR_AVAILABLE plain_providers) (PDFPLUMBER_AVAILABLE plain_providers),
     200).
Proof.
  apply (no_section_is_not_an_error example_clock plain_providers "session"
           (Some example_upload) example_world).
  - exists example_upload. split; [reflexivity|]. split; [discriminate|].
    split; [vm_compute; reflexivity | discriminate].
  - vm_compute. discriminate.
  - intros item Hin. vm_compute in Hin. destruct Hin as [<-|[]].
    vm_compute. reflexivity.
Defined.
